(** * Enhanced HSK/USDT monitor: technical analysis engine

    A shallow embedding of [enhanced_hsk_monitor.py]: the rolling price
    window ([TechnicalAnalyzer]), its indicators, the K-line summary, the
    interpretation composer and one cycle of the polling loop.

    Numbers.  Prices are Python floats.  They are modelled as exact
    rationals ([Q]): comparisons, sums, products and quotients are the
    exact ones, and rounding, overflow, infinities and NaN are outside the
    model.  Numeric equality is [Qeq] (Python's [==]), so results are
    compared with [==] where two representations of one number may occur.

    Exceptions.  Python raises where Rocq's total functions would return a
    default (division by zero, indexing out of range); the model keeps the
    raise as a value of [result]. *)

From Stdlib Require Import String Ascii.
From Stdlib Require Import List Arith Lia Bool ZArith Sorted.
From Stdlib Require Import QArith Qround Qabs Lqa.
Import ListNotations.

Open Scope Q_scope.

(** ** Python values and exceptions *)

Inductive exn : Set :=
| ZeroDivisionError
| IndexError
| StatisticsError
| ValueError.

Inductive result (A : Type) : Type :=
| Ok (a : A)
| Raise (e : exn).

Arguments Ok {A} a.
Arguments Raise {A} e.

Definition rbind {A B : Type} (r : result A) (k : A -> result B) : result B :=
  match r with
  | Ok a => k a
  | Raise e => Raise e
  end.

(** [x < y] on numbers. *)
Definition Qlt_bool (x y : Q) : bool := negb (Qle_bool y x).

(** [x / y]: Python raises on a zero divisor. *)
Definition py_div (x y : Q) : result Q :=
  if Qeq_bool y 0 then Raise ZeroDivisionError else Ok (x / y).

(** [sum(l)]: left to right from 0. *)
Definition py_sum (l : list Q) : Q := fold_left Qplus l 0.

(** [l[-n:]] for [n >= 0].  [-0] is [0], so [l[-0:]] is the whole list. *)
Definition slice_last {A : Type} (n : nat) (l : list A) : list A :=
  match n with
  | O => l
  | S _ => skipn (length l - n) l
  end.

(** [l[lo:hi]] for [0 <= lo], [0 <= hi]. *)
Definition slice {A : Type} (lo hi : nat) (l : list A) : list A :=
  firstn (hi - lo) (skipn lo l).

(** [range(start, stop)] *)
Definition py_range (start stop : nat) : list nat := seq start (stop - start).

(** [l[i]] for an integer index: a negative index counts from the end, and
    an index out of range raises. *)
Definition py_getitem {A : Type} (l : list A) (i : Z) : result A :=
  let n := Z.of_nat (length l) in
  let j := if (i <? 0)%Z then (i + n)%Z else i in
  if ((j <? 0) || (n <=? j))%Z then Raise IndexError
  else match nth_error l (Z.to_nat j) with
       | Some x => Ok x
       | None => Raise IndexError
       end.

(** [max(l)] and [min(l)]: the first extremal element; [ValueError] on an
    empty sequence. *)
Definition py_max (l : list Q) : result Q :=
  match l with
  | [] => Raise ValueError
  | x :: r => Ok (fold_left (fun best y => if Qlt_bool best y then y else best) r x)
  end.

Definition py_min (l : list Q) : result Q :=
  match l with
  | [] => Raise ValueError
  | x :: r => Ok (fold_left (fun best y => if Qlt_bool y best then y else best) r x)
  end.

(** [len(set(l))]: the number of numerically distinct elements. *)
Fixpoint mem_num (x : Q) (l : list Q) : bool :=
  match l with
  | [] => false
  | y :: r => Qeq_bool x y || mem_num x r
  end.

Fixpoint set_of (l : list Q) (seen : list Q) : list Q :=
  match l with
  | [] => seen
  | x :: r => if mem_num x seen then set_of r seen else set_of r (seen ++ [x])
  end.

Definition len_set (l : list Q) : nat := length (set_of l []).

(** [sorted(l)]: a stable sort, here by insertion; [sorted(l, reverse=True)]
    keeps equal elements in their original order too. *)
Fixpoint insert_sorted (x : Q) (l : list Q) : list Q :=
  match l with
  | [] => [x]
  | y :: r => if Qlt_bool x y then x :: y :: r else y :: insert_sorted x r
  end.

Definition py_sorted (l : list Q) : list Q :=
  fold_left (fun acc x => insert_sorted x acc) l [].

Definition py_sorted_reverse (l : list Q) : list Q :=
  rev (py_sorted (rev l)).

(** Truthiness of an optional number: [None] and [0] are falsy. *)
Definition truthy (o : option Q) : bool :=
  match o with
  | None => false
  | Some q => negb (Qeq_bool q 0)
  end.

(** [statistics.stdev]: the sample standard deviation; it raises on fewer
    than two data points.  The square root is not rational and is taken as
    a parameter. *)
Definition py_mean (l : list Q) : Q := py_sum l / inject_Z (Z.of_nat (length l)).

Definition py_stdev (sqrt : Q -> Q) (l : list Q) : result Q :=
  if (length l <? 2)%nat then Raise StatisticsError
  else
    let m := py_mean l in
    let ss := py_sum (map (fun x => (x - m) * (x - m)) l) in
    Ok (sqrt (ss / inject_Z (Z.of_nat (length l) - 1))).

(** ** The price window *)

(** [collections.deque(maxlen=n)]: [append] adds on the right and, when the
    deque is then longer than [maxlen], drops the leftmost item. *)
Record deque (A : Type) : Type := mkDeque { items : list A; maxlen : nat }.

Arguments mkDeque {A} items maxlen.
Arguments items {A} d.
Arguments maxlen {A} d.

Definition deque_new {A : Type} (n : nat) : deque A := mkDeque [] n.

Definition deque_append {A : Type} (x : A) (d : deque A) : deque A :=
  let l := items d ++ [x] in
  mkDeque (if (maxlen d <? length l)%nat then tl l else l) (maxlen d).

(** A point in time, as a number. *)
Definition instant : Set := Z.

Record TechnicalAnalyzer : Type := mkAnalyzer {
  prices : deque Q;
  timestamps : deque instant;
  lookback_period : nat
}.

(** [TechnicalAnalyzer(lookback_period)]; the monitor uses the default, 20. *)
Definition new_analyzer (lookback : nat) : TechnicalAnalyzer :=
  mkAnalyzer (deque_new lookback) (deque_new lookback) lookback.

Definition default_lookback : nat := 20.

(** Methods of the analyzer: a computation on [self] that returns a value or
    raises, and the analyzer it leaves. *)
Definition M (A : Type) : Type := TechnicalAnalyzer -> result A * TechnicalAnalyzer.

Definition ret {A : Type} (a : A) : M A := fun self => (Ok a, self).

Definition raise {A : Type} (e : exn) : M A := fun self => (Raise e, self).

Definition bind {A B : Type} (m : M A) (k : A -> M B) : M B :=
  fun self =>
    match m self with
    | (Ok a, self') => k a self'
    | (Raise e, self') => (Raise e, self')
    end.

Definition lift {A : Type} (r : result A) : M A := fun self => (r, self).

(** Reading [self.prices] (as a list) and [self.lookback_period]. *)
Definition self_prices : M (list Q) := fun self => (Ok (items (prices self)), self).

Definition self_lookback_period : M nat := fun self => (Ok (lookback_period self), self).

(** [try: m except Exception: handler] *)
Definition try_except {A : Type} (m : M A) (handler : exn -> M A) : M A :=
  fun self =>
    match m self with
    | (Ok a, self') => (Ok a, self')
    | (Raise e, self') => handler e self'
    end.

Declare Scope analyzer_scope.
Delimit Scope analyzer_scope with analyzer.
Notation "x <- m ;; k" := (bind m (fun x => k))
  (at level 61, m at next level, right associativity) : analyzer_scope.
Open Scope analyzer_scope.

(** [add_price(price, timestamp=None)]; [now] is what [datetime.now()]
    returns at the call. *)
Definition add_price (now : instant) (price : Q) (timestamp : option instant)
  : M unit :=
  fun self =>
    let timestamp := match timestamp with None => now | Some t => t end in
    (Ok tt, mkAnalyzer (deque_append price (prices self))
                       (deque_append timestamp (timestamps self))
                       (lookback_period self)).

(** ** Indicators *)

Definition Qnat (n : nat) : Q := inject_Z (Z.of_nat n).

(** [calculate_sma(period=None)] *)
Definition calculate_sma (period : option nat) : M (option Q) :=
  ps <- self_prices ;;
  period <- match period with
            | None => lb <- self_lookback_period ;; ret (Nat.min lb (length ps))
            | Some p => ret p
            end ;;
  if (length ps <? period)%nat then ret None
  else
    v <- lift (py_div (py_sum (slice_last period ps)) (Qnat period)) ;;
    ret (Some v).

(** [calculate_ema(period=12)] *)
Definition calculate_ema (period : nat) : M (option Q) :=
  ps <- self_prices ;;
  if (length ps <? period)%nat then ret None
  else
    let prices := slice_last period ps in
    multiplier <- lift (py_div 2 (Qnat period + 1)) ;;
    ema0 <- lift (py_getitem prices 0) ;;
    ret (Some (fold_left
                 (fun ema price => price * multiplier + ema * (1 - multiplier))
                 (skipn 1 prices) ema0)).

(** The body of the [for i in range(...)] loop of [calculate_rsi], over the
    indices still to visit. *)
Fixpoint rsi_loop (ps : list Q) (indices : list nat) (gains losses : list Q)
  : result (list Q * list Q) :=
  match indices with
  | [] => Ok (gains, losses)
  | i :: rest =>
      if (i =? 0)%nat then rsi_loop ps rest gains losses
      else
        rbind (py_getitem ps (Z.of_nat i)) (fun p_i =>
        rbind (py_getitem ps (Z.of_nat i - 1)) (fun p_prev =>
        if Qlt_bool p_prev p_i
        then rsi_loop ps rest (gains ++ [p_i - p_prev]) (losses ++ [0])
        else rsi_loop ps rest (gains ++ [0]) (losses ++ [p_prev - p_i])))
  end.

(** [calculate_rsi(period=14)].  Past the first guard [len - period] is
    positive, so the natural-number subtraction is the integer one. *)
Definition calculate_rsi (period : nat) : M (option Q) :=
  ps <- self_prices ;;
  if (length ps <? period + 1)%nat then ret None
  else
    gl <- lift (rsi_loop ps (py_range (length ps - period) (length ps)) [] []) ;;
    let gains := fst gl in
    let losses := snd gl in
    if ((length gains <? period) || (length losses <? period))%nat then ret None
    else
      avg_gain <- lift (py_div (py_sum (slice_last period gains)) (Qnat period)) ;;
      avg_loss <- lift (py_div (py_sum (slice_last period losses)) (Qnat period)) ;;
      if Qeq_bool avg_loss 0 then ret (Some 100)
      else
        rs <- lift (py_div avg_gain avg_loss) ;;
        q <- lift (py_div 100 (1 + rs)) ;;
        ret (Some (100 - q)).

(** [get_trend()] *)
Definition get_trend : M string :=
  ps <- self_prices ;;
  if (length ps <? 5)%nat then ret "数据不足"%string
  else
    let recent_prices := slice_last 5 ps in
    if (len_set recent_prices =? 1)%nat then ret "中性"%string
    else
      newest <- lift (py_getitem recent_prices (-1)) ;;
      oldest <- lift (py_getitem recent_prices 0) ;;
      if Qlt_bool oldest newest then
        previous <- lift (py_getitem recent_prices (-2)) ;;
        if Qlt_bool previous newest then ret "看涨"%string
        else ret "看涨反转"%string
      else
        previous <- lift (py_getitem recent_prices (-2)) ;;
        if Qlt_bool newest previous then ret "看跌"%string
        else ret "看跌反转"%string.

(** The dictionary [{"support": ..., "resistance": ...}]. *)
Record sup_res : Type := mkSupRes {
  support : option Q;
  resistance : option Q
}.

(** [analyze_support_resistance(window_size=8)] *)
Definition analyze_support_resistance (window_size : nat) : M sup_res :=
  ps <- self_prices ;;
  if (length ps <? 5)%nat then ret (mkSupRes None None)
  else
    let recent_prices :=
      if (window_size <=? length ps)%nat then slice_last window_size ps else ps in
    lo <- lift (py_min recent_prices) ;;
    hi <- lift (py_max recent_prices) ;;
    ret (mkSupRes (Some lo) (Some hi)).

(** [get_momentum(period=5)] *)
Definition get_momentum (period : nat) : M (option Q) :=
  ps <- self_prices ;;
  if (length ps <? period)%nat then ret None
  else
    old_price <- lift (py_getitem ps (- Z.of_nat period)) ;;
    current_price <- lift (py_getitem ps (-1)) ;;
    q <- lift (py_div (current_price - old_price) old_price) ;;
    ret (Some (q * 100)).

Section Volatility.

(** [math.sqrt], used by [statistics.stdev]. *)
Variable sqrt : Q -> Q.

(** [get_volatility(period=5)] *)
Definition get_volatility (period : nat) : M (option Q) :=
  ps <- self_prices ;;
  if (length ps <? period)%nat then ret None
  else
    let recent_prices := slice_last period ps in
    if (len_set recent_prices =? 1)%nat then ret (Some 0)
    else
      v <- lift (py_stdev sqrt recent_prices) ;;
      ret (Some v).

End Volatility.

(** ** K-line summary *)

(** [[f(x) for x in l]] for an [f] that may raise. *)
Fixpoint result_map {A B : Type} (f : A -> result B) (l : list A) : result (list B) :=
  match l with
  | [] => Ok []
  | x :: r => rbind (f x) (fun y => rbind (result_map f r) (fun ys => Ok (y :: ys)))
  end.

(** [[max(closes[max(0, i-5):i+1]) for i in range(len(closes))]] and its
    twin with [min]. *)
Definition trailing_extrema (extremum : list Q -> result Q) (closes : list Q)
  : result (list Q) :=
  result_map (fun i => extremum (slice (Nat.max 0 (i - 5)) (i + 1) closes))
             (py_range 0 (length closes)).

(** [l[0] if l else None] *)
Definition first_or_none (l : list Q) : option Q :=
  match l with
  | [] => None
  | x :: _ => Some x
  end.

(** The locals of [get_kline_analysis] that the report is built from. *)
Record kline_levels : Type := mkKline {
  kline_trend : string;
  kline_volatility : Q;
  kline_support : option Q;
  kline_resistance : option Q
}.

Section Kline.

Variable sqrt : Q -> Q.

(** [get_kline_analysis] from [start_price = closes[0]] to the volatility,
    for a batch that passed the [len(closes) < 2] guard. *)
Definition kline_locals (closes : list Q) : result kline_levels :=
  rbind (py_getitem closes 0) (fun start_price =>
  rbind (py_getitem closes (-1)) (fun end_price =>
  rbind (py_max closes) (fun highest_price =>
  rbind (py_min closes) (fun lowest_price =>
  rbind (py_div (end_price - start_price) start_price) (fun q =>
  let overall_change := q * 100 in
  let recent_closes :=
    if (10 <=? length closes)%nat then slice_last 10 closes else closes in
  rbind (py_getitem recent_closes (-1)) (fun newest =>
  rbind (py_getitem recent_closes 0) (fun oldest =>
  let kline_trend := if Qlt_bool oldest newest then "看涨"%string else "看跌"%string in
  rbind (py_getitem closes (-1)) (fun current_level =>
  rbind (trailing_extrema py_max closes) (fun highs =>
  let recent_highs := firstn 5 (py_sorted_reverse highs) in
  rbind (trailing_extrema py_min closes) (fun lows =>
  let recent_lows := firstn 5 (py_sorted lows) in
  let resistance := first_or_none recent_highs in
  let support := first_or_none recent_lows in
  rbind (if (1 <? length closes)%nat then py_stdev sqrt closes else Ok 0)
        (fun volatility =>
  Ok (mkKline kline_trend volatility support resistance)))))))))))).

(** What the candlestick request gives: a failure of the request, or the
    decoded list of candles, each with the value of [float(k[2])] ([None]
    where that raises). *)
Inductive kline_response : Type :=
| KlineRequestFailed
| KlineData (candles : list (option Q)).

Fixpoint parse_closes (candles : list (option Q)) : result (list Q) :=
  match candles with
  | [] => Ok []
  | None :: _ => Raise ValueError
  | Some c :: r => rbind (parse_closes r) (fun cs => Ok (c :: cs))
  end.

Variable format_6f : Q -> string.

Definition render_kline (k : kline_levels) : string :=
  let analysis :=
    ("K线分析: 趋势=" ++ kline_trend k ++ ", 波动率=" ++ format_6f (kline_volatility k))%string in
  let analysis :=
    match kline_support k with
    | Some s => if truthy (Some s) then (analysis ++ ", 支撑=" ++ format_6f s)%string
                else analysis
    | None => analysis
    end in
  match kline_resistance k with
  | Some r => if truthy (Some r) then (analysis ++ ", 阻力=" ++ format_6f r)%string
              else analysis
  | None => analysis
  end.

(** [get_kline_analysis()] *)
Definition get_kline_analysis (response : kline_response) : string :=
  match response with
  | KlineRequestFailed => "K线数据获取失败"%string
  | KlineData [] => "无法获取K线数据"%string
  | KlineData candles =>
      match parse_closes candles with
      | Raise _ => "K线数据获取失败"%string
      | Ok closes =>
          if (length closes <? 2)%nat then "K线数据不足"%string
          else match kline_locals closes with
               | Ok k => render_kline k
               | Raise _ => "K线数据获取失败"%string
               end
      end
  end.

End Kline.

(** ** Interpretation composer *)

(** [int(x)]: truncation toward zero. *)
Definition py_int (x : Q) : Z :=
  if Qle_bool 0 x then Qfloor x else Qceiling x.

Definition is_in (s : string) (l : list string) : bool :=
  existsb (String.eqb s) l.

Section Composer.

(** [f"{x:.6f}"] and [f"{x:.2f}"] *)
Variable format_6f : Q -> string.
Variable format_2f : Q -> string.

(** The statements each block of [generate_interpretation] appends. *)
Definition trend_rule (trend : string) : list string :=
  if negb (String.eqb trend "数据不足") then
    if is_in trend ["看涨"; "看涨反转"]%string then
      ["短期趋势: " ++ trend ++ "，价格可能继续上涨"]%string
    else if is_in trend ["看跌"; "看跌反转"]%string then
      ["短期趋势: " ++ trend ++ "，价格可能继续下跌"]%string
    else []
  else [].

Definition sma_rule (current_price : Q) (sma : option Q) : list string :=
  match sma with
  | Some v =>
      if truthy sma then
        let shown := format_6f (inject_Z (py_int (v * 1000000)) / 1000000) in
        if Qlt_bool v current_price then
          ["价格高于" ++ shown ++ " SMA，看涨信号"]%string
        else
          ["价格低于" ++ shown ++ " SMA，看跌信号"]%string
      else []
  | None => []
  end.

Definition rsi_rule (rsi : option Q) : list string :=
  match rsi with
  | Some v =>
      if truthy rsi then
        if Qlt_bool 70 v then
          ["RSI超买(" ++ format_2f v ++ ")，可能出现回调"]%string
        else if Qlt_bool v 30 then
          ["RSI超卖(" ++ format_2f v ++ ")，可能出现反弹"]%string
        else
          ["RSI中性(" ++ format_2f v ++ ")，趋势稳定"]%string
      else []
  | None => []
  end.

Definition levels_rule (current_price : Q) (sr : sup_res) : list string :=
  match support sr, resistance sr with
  | Some lo, Some hi =>
      if truthy (support sr) && truthy (resistance sr) then
        if Qle_bool current_price (lo * (1001 # 1000)) then
          ["接近支撑位" ++ format_6f lo ++ "，可能获得支撑"]%string
        else if Qle_bool (hi * (999 # 1000)) current_price then
          ["接近阻力位" ++ format_6f hi ++ "，可能遇到阻力"]%string
        else
          ["价格在支撑" ++ format_6f lo ++ "与阻力" ++ format_6f hi ++ "之间运行"]%string
      else []
  | _, _ => []
  end.

Definition momentum_rule (momentum : option Q) : list string :=
  match momentum with
  | Some m =>
      if truthy momentum then
        if Qlt_bool 5 (Qabs m) then
          let direction := if Qlt_bool 0 m then "上行"%string else "下行"%string in
          ["动量强劲(" ++ format_2f m ++ "%)，" ++ direction ++ "趋势明显"]%string
        else if Qlt_bool (Qabs m) 1 then
          ["动量较弱(" ++ format_2f m ++ "%)，可能盘整"]%string
        else []
      else []
  | None => []
  end.

Definition kline_rule (kline_trend : string) : list string :=
  if negb (String.eqb kline_trend "未知") then
    ["K线趋势: " ++ kline_trend ++ " (6小时周期)"]%string
  else [].

Definition fallback_statement : string := "技术指标不足，建议观望".

(** The list [interpretations] when the function joins it. *)
Definition interpretations
  (current_price : Q) (trend : string) (sma rsi : option Q) (sr : sup_res)
  (volatility momentum : option Q)
  (kline_trend kline_volatility kline_support kline_resistance : string)
  : list string :=
  let l := [] ++ trend_rule trend in
  let l := l ++ sma_rule current_price sma in
  let l := l ++ rsi_rule rsi in
  let l := l ++ levels_rule current_price sr in
  let l := l ++ momentum_rule momentum in
  let l := l ++ kline_rule kline_trend in
  match l with
  | [] => [fallback_statement]
  | _ => l
  end.

(** [generate_interpretation(...)] *)
Definition generate_interpretation
  (current_price : Q) (trend : string) (sma rsi : option Q) (sr : sup_res)
  (volatility momentum : option Q)
  (kline_trend kline_volatility kline_support kline_resistance : string)
  : string :=
  ("市场解读: " ++
   String.concat "；"
     (interpretations current_price trend sma rsi sr volatility momentum
        kline_trend kline_volatility kline_support kline_resistance))%string.

End Composer.

(** ** The polling loop *)

(** The fields of a ticker, each the value of [float(ticker[key])], or [None]
    where the key is missing or its value is not a number. *)
Record ticker : Type := mkTicker {
  last : option Q;
  change_percentage : option Q;
  lowest_ask : option Q;
  highest_bid : option Q;
  high_24h : option Q;
  low_24h : option Q;
  base_volume : option Q;
  quote_volume : option Q
}.

(** What the ticker request gives: one of the failures the function
    handles, or decoded JSON, a list of tickers or something else. *)
Inductive ticker_response : Type :=
| HTTPError
| Timeout
| ConnectionError
| InvalidJSON
| OtherFailure
| JsonList (data : list ticker)
| JsonOther.

Record price_data : Type := mkPriceData {
  price : Q;
  pd_change_percentage : Q;
  pd_lowest_ask : Q;
  pd_highest_bid : Q;
  pd_high_24h : Q;
  pd_low_24h : Q;
  pd_base_volume : Q;
  pd_quote_volume : Q
}.

(** [get_hsk_price()]: [None] on every failure. *)
Definition get_hsk_price (response : ticker_response) : option price_data :=
  match response with
  | JsonList (t :: _) =>
      match last t, change_percentage t, lowest_ask t, highest_bid t,
            high_24h t, low_24h t, base_volume t, quote_volume t with
      | Some a, Some b, Some c, Some d, Some e, Some f, Some g, Some h =>
          Some (mkPriceData a b c d e f g h)
      | _, _, _, _, _, _, _, _ => None
      end
  | JsonList [] => None
  | JsonOther => None
  | HTTPError | Timeout | ConnectionError | InvalidJSON | OtherFailure => None
  end.

Section Monitor.

Variable sqrt : Q -> Q.

(** [send_to_lark_webhook(price_data, tech_analysis)] as far as the
    analyzer is concerned: the seven indicator calls with their default
    arguments, then the message (built from their values alone) is
    posted; [posted] says whether the request succeeded.  Any exception
    is caught and gives [False]. *)
Definition send_to_lark_webhook (posted : bool) : M bool :=
  try_except
    (sma <- calculate_sma None ;;
     ema <- calculate_ema 12 ;;
     rsi <- calculate_rsi 14 ;;
     trend <- get_trend ;;
     sr <- analyze_support_resistance 8 ;;
     volatility <- get_volatility sqrt 5 ;;
     momentum <- get_momentum 5 ;;
     ret posted)
    (fun _ => ret false).

(** One pass of the [while True] loop of [main]; the result says whether
    an update was sent. *)
Definition main_cycle (now : instant) (response : ticker_response)
  (posted : bool) : M bool :=
  match get_hsk_price response with
  | Some current_data =>
      _ <- add_price now (price current_data) None ;;
      send_to_lark_webhook posted
  | None => ret false
  end.

(** The loop over the successive cycles. *)
Fixpoint main_loop (cycles : list (instant * ticker_response * bool))
  (self : TechnicalAnalyzer) : TechnicalAnalyzer :=
  match cycles with
  | [] => self
  | (now, response, posted) :: rest =>
      main_loop rest (snd (main_cycle now response posted self))
  end.

End Monitor.

(** ** Reading the K-line report back *)

(** Python strings are sequences of code points; here they are their UTF-8
    bytes.  A UTF-8 string occurs in another as a byte sequence exactly
    where it occurs as a code-point sequence, so searching, splitting and
    removing act alike on both. *)

(** [s.startswith(p)] *)
Fixpoint starts_with (p s : string) : bool :=
  match p with
  | EmptyString => true
  | String a p' =>
      match s with
      | EmptyString => false
      | String b s' => Ascii.eqb a b && starts_with p' s'
      end
  end.

(** [sub in s] *)
Fixpoint py_contains (sub s : string) : bool :=
  starts_with sub s ||
  match s with
  | EmptyString => false
  | String _ s' => py_contains sub s'
  end.

(** [s.split(sep)] for a non-empty [sep], scanning from the left: [skip]
    counts the characters of a separator just matched that are still to
    pass, [cur] is the piece being read. *)
Fixpoint split_from (sep : string) (skip : nat) (cur s : string) : list string :=
  match s with
  | EmptyString => [cur]
  | String c s' =>
      match skip with
      | S k => split_from sep k cur s'
      | O =>
          if starts_with sep s
          then cur :: split_from sep (String.length sep - 1) EmptyString s'
          else split_from sep 0 (cur ++ String c EmptyString)%string s'
      end
  end.

Definition py_split (sep s : string) : list string :=
  split_from sep 0 EmptyString s.

(** [s.replace(old, "")] for a non-empty [old]. *)
Fixpoint remove_from (old : string) (skip : nat) (s : string) : string :=
  match s with
  | EmptyString => EmptyString
  | String c s' =>
      match skip with
      | S k => remove_from old k s'
      | O =>
          if starts_with old s
          then remove_from old (String.length old - 1) s'
          else String c (remove_from old 0 s')
      end
  end.

Definition py_remove (old s : string) : string := remove_from old 0 s.

(** The four K-line variables of [send_to_lark_webhook]. *)
Record kline_fields : Type := mkFields {
  kf_trend : string;
  kf_volatility : string;
  kf_support : string;
  kf_resistance : string
}.

Definition unknown_fields : kline_fields :=
  mkFields "未知" "未知" "未知" "未知".

(** One pass of the loop [for part in parts]. *)
Definition read_part (kf : kline_fields) (part : string) : result kline_fields :=
  if py_contains "趋势=" part then
    rbind (py_getitem (py_split "=" part) 1) (fun v =>
    Ok (mkFields v (kf_volatility kf) (kf_support kf) (kf_resistance kf)))
  else if py_contains "波动率=" part then
    rbind (py_getitem (py_split "=" part) 1) (fun v =>
    Ok (mkFields (kf_trend kf) v (kf_support kf) (kf_resistance kf)))
  else if py_contains "支撑=" part then
    rbind (py_getitem (py_split "=" part) 1) (fun v =>
    Ok (mkFields (kf_trend kf) (kf_volatility kf) v (kf_resistance kf)))
  else if py_contains "阻力=" part then
    rbind (py_getitem (py_split "=" part) 1) (fun v =>
    Ok (mkFields (kf_trend kf) (kf_volatility kf) (kf_support kf) v))
  else Ok kf.

Fixpoint read_parts (kf : kline_fields) (parts : list string) : result kline_fields :=
  match parts with
  | [] => Ok kf
  | part :: rest => rbind (read_part kf part) (fun kf' => read_parts kf' rest)
  end.

(** The extraction of the K-line components from the report string. *)
Definition parse_kline_analysis (kline_analysis_str : string) : result kline_fields :=
  if py_contains "K线分析:" kline_analysis_str then
    read_parts unknown_fields
      (py_split ", " (py_remove "K线分析: " kline_analysis_str))
  else Ok unknown_fields.

(** ** The message *)


Section Message.

Variable sqrt : Q -> Q.

(** [f"{x:.6f}"], [f"{x:.2f}"] and [f"{x:+.2f}"] *)
Variable format_6f : Q -> string.
Variable format_2f : Q -> string.
Variable format_plus_2f : Q -> string.




End Message.

(** ** Vocabulary of the statements *)

(** The window as the sequence of observations, oldest first. *)
Definition window (self : TechnicalAnalyzer) : list (Q * instant) :=
  combine (items (prices self)) (items (timestamps self)).

(** A call of [add_price]: the clock at the call, the price and the
    optional timestamp. *)
Definition observation : Type := instant * Q * option instant.

Definition add_prices (obs : list observation) (self : TechnicalAnalyzer)
  : TechnicalAnalyzer :=
  fold_left (fun a o => snd (add_price (fst (fst o)) (snd (fst o)) (snd o) a))
            obs self.

(** What the constructor and [add_price] maintain. *)
Definition well_formed (self : TechnicalAnalyzer) : Prop :=
  maxlen (prices self) = lookback_period self /\
  maxlen (timestamps self) = lookback_period self /\
  length (items (timestamps self)) = length (items (prices self)) /\
  (length (items (prices self)) <= lookback_period self)%nat.

(** A method that leaves [self] as it found it. *)
Definition pure_method {A : Type} (m : M A) : Prop :=
  forall self, snd (m self) = self.

(** A window of integer prices, filled through [add_price] at the default
    capacity. *)
Definition window_of (l : list Z) : TechnicalAnalyzer :=
  add_prices (map (fun p => (0%Z, inject_Z p, None)) l) (new_analyzer default_lookback).

Definition rising_15 : TechnicalAnalyzer :=
  window_of [1; 2; 3; 4; 5; 6; 7; 8; 9; 10; 11; 12; 13; 14; 15]%Z.

Definition falling_15 : TechnicalAnalyzer :=
  window_of [15; 14; 13; 12; 11; 10; 9; 8; 7; 6; 5; 4; 3; 2; 1]%Z.

(** An optional level and a computed extremum are the same number. *)
Definition same_level (o : option Q) (r : result Q) : Prop :=
  match o, r with
  | Some x, Ok y => x == y
  | _, _ => False
  end.

(** The global extrema of a batch: [max(closes)] and [min(closes)]. *)
Definition global_max (closes : list Q) : result Q := py_max closes.

Definition global_min (closes : list Q) : result Q := py_min closes.

(** The last ten closes of a batch (all of them when there are fewer), as
    [get_kline_analysis] takes them. *)
Definition recent_closes_of (closes : list Q) : list Q :=
  if (10 <=? length closes)%nat then slice_last 10 closes else closes.

(** The K-line trend as the specification words it: bullish when the newest
    close of the slice is at least the oldest. *)
Definition spec_kline_trend (closes : list Q) : string :=
  let recent := recent_closes_of closes in
  if Qle_bool (hd 0 recent) (List.last recent 0) then "看涨"%string else "看跌"%string.

(** The value of a method is decided by the prices in the window. *)
Definition window_determined {A : Type} (m : M A) : Prop :=
  forall a b, items (prices a) = items (prices b) -> fst (m a) = fst (m b).

(** On two analyzers, a method changes neither and returns the same. *)
Definition agrees_on {A : Type} (m : M A) (a b : TechnicalAnalyzer) : Prop :=
  snd (m a) = a /\ snd (m b) = b /\ fst (m a) = fst (m b).

Definition nonneg (x : Q) : Prop := 0 <= x.

(** [get_trend] on a window whose last five prices are known. *)
Definition trend_of_five (x0 x1 x2 x3 x4 : Q) : string :=
  if (len_set [x0; x1; x2; x3; x4] =? 1)%nat then "中性"
  else if Qlt_bool x0 x4 then
         if Qlt_bool x3 x4 then "看涨" else "看涨反转"
       else
         if Qlt_bool x4 x3 then "看跌" else "看跌反转".

(** [m] is an element of [l] that no element exceeds (resp. undercuts). *)
Definition greatest_of (m : Q) (l : list Q) : Prop :=
  In m l /\ forall y, In y l -> y <= m.

Definition least_of (m : Q) (l : list Q) : Prop :=
  In m l /\ forall y, In y l -> m <= y.

(** The same for any order [R]: [R y m] for every element [y]. *)
Definition extreme_of (R : Q -> Q -> Prop) (m : Q) (l : list Q) : Prop :=
  In m l /\ forall y, In y l -> R y m.

(** The last [n] elements of a list (all of it when it is shorter). *)
Definition keep_last {A : Type} (n : nat) (l : list A) : list A :=
  skipn (length l - n) l.

(** The observation an [add_price] call stores. *)
Definition stored (o : observation) : Q * instant :=
  (snd (fst o), match snd o with None => fst (fst o) | Some t => t end).

(** The [add_price] calls a run of the loop makes: one per cycle whose fetch
    succeeded, with the fetched price and no timestamp. *)
Definition fetched (cycles : list (instant * ticker_response * bool))
  : list observation :=
  flat_map (fun c => match get_hsk_price (snd (fst c)) with
                     | Some d => [(fst (fst c), price d, None)]
                     | None => []
                     end) cycles.

(** A number between two bounds. *)
Definition within (lo hi x : Q) : Prop := lo <= x <= hi.

(** The gain and the loss [calculate_rsi] records at index [i >= 1]. *)
Definition gain_at (ps : list Q) (i : nat) : Q :=
  if Qlt_bool (nth (i - 1) ps 0) (nth i ps 0)
  then nth i ps 0 - nth (i - 1) ps 0 else 0.

Definition loss_at (ps : list Q) (i : nat) : Q :=
  if Qlt_bool (nth (i - 1) ps 0) (nth i ps 0)
  then 0 else nth (i - 1) ps 0 - nth i ps 0.

(** The indices [calculate_rsi] visits on a window of [n] prices. *)
Definition rsi_indices (period n : nat) : list nat := seq (n - period) period.


(** The character [c] occurs in [s]. *)
Fixpoint occurs (c : ascii) (s : string) : bool :=
  match s with
  | EmptyString => false
  | String d s' => Ascii.eqb c d || occurs c s'
  end.

(** A string of digits, points and minus signs, as [f"{x:.6f}"] gives for a
    finite number. *)
Definition plain (s : string) : Prop :=
  forall c, occurs c s = true -> occurs c "0123456789.-" = true.

(** A level as the report carries it: formatted when it is present and not
    zero, and otherwise left out, which the reader sees as [未知]. *)
Definition shown_level (format_6f : Q -> string) (o : option Q) : string :=
  match o with
  | Some v => if truthy o then format_6f v else "未知"
  | None => "未知"
  end.

(** The fields the reader finds in the report rendered from [k]. *)
Definition fields_of (format_6f : Q -> string) (k : kline_levels) : kline_fields :=
  mkFields (kline_trend k) (format_6f (kline_volatility k))
           (shown_level format_6f (kline_support k))
           (shown_level format_6f (kline_resistance k)).

(** The pieces of the report rendered from [k], after its heading. *)
Definition report_parts (format_6f : Q -> string) (k : kline_levels) : list string :=
  [("趋势=" ++ kline_trend k)%string;
   ("波动率=" ++ format_6f (kline_volatility k))%string]
  ++ match kline_support k with
     | Some v => if truthy (Some v) then [("支撑=" ++ format_6f v)%string] else []
     | None => []
     end
  ++ match kline_resistance k with
     | Some v => if truthy (Some v) then [("阻力=" ++ format_6f v)%string] else []
     | None => []
     end.

(** ** Facts on numbers and lists *)

Lemma Qlt_bool_iff (x y : Q) : Qlt_bool x y = true <-> x < y.
Proof.
  unfold Qlt_bool. rewrite negb_true_iff. split; intro H.
  - apply Qnot_le_lt. intro Hle. apply Qle_bool_iff in Hle. congruence.
  - destruct (Qle_bool y x) eqn:E; [|reflexivity].
    apply Qle_bool_iff in E. exfalso. exact (Qlt_not_le _ _ H E).
Qed.

Lemma Qlt_bool_false_iff (x y : Q) : Qlt_bool x y = false <-> y <= x.
Proof.
  unfold Qlt_bool. rewrite negb_false_iff. apply Qle_bool_iff.
Qed.

Lemma Qnat_pos (n : nat) : (0 < n)%nat -> 0 < Qnat n.
Proof.
  intro H. unfold Qnat, Qlt, inject_Z. cbn [Qnum Qden]. lia.
Qed.

Lemma py_div_ok (x y : Q) : ~ y == 0 -> py_div x y = Ok (x / y).
Proof.
  intro H. unfold py_div. destruct (Qeq_bool y 0) eqn:E; [|reflexivity].
  apply Qeq_bool_iff in E. contradiction.
Qed.

Lemma py_div_zero (x y : Q) : y == 0 -> py_div x y = Raise ZeroDivisionError.
Proof.
  intro H. unfold py_div. now rewrite (Qeq_eq_bool _ _ H).
Qed.

Lemma py_getitem_nat {A : Type} (l : list A) (i : nat) (x : A) :
  nth_error l i = Some x -> py_getitem l (Z.of_nat i) = Ok x.
Proof.
  intro H. unfold py_getitem. cbv zeta.
  assert (Hi : (i < length l)%nat) by (apply nth_error_Some; congruence).
  assert (E1 : (Z.of_nat i <? 0)%Z = false) by (apply Z.ltb_ge; lia).
  assert (E2 : (Z.of_nat (length l) <=? Z.of_nat i)%Z = false) by (apply Z.leb_gt; lia).
  rewrite !E1, E2. cbn [orb]. now rewrite Nat2Z.id, H.
Qed.

Lemma py_getitem_from_end {A : Type} (l : list A) (k : nat) (x : A) :
  (0 < k <= length l)%nat ->
  nth_error l (length l - k) = Some x ->
  py_getitem l (- Z.of_nat k) = Ok x.
Proof.
  intros Hk H. unfold py_getitem. cbv zeta.
  assert (E0 : (- Z.of_nat k <? 0)%Z = true) by (apply Z.ltb_lt; lia).
  assert (E1 : (- Z.of_nat k + Z.of_nat (length l) <? 0)%Z = false)
    by (apply Z.ltb_ge; lia).
  assert (E2 : (Z.of_nat (length l) <=? - Z.of_nat k + Z.of_nat (length l))%Z = false)
    by (apply Z.leb_gt; lia).
  rewrite E0, E1, E2. cbn [orb].
  replace (Z.to_nat (- Z.of_nat k + Z.of_nat (length l))) with (length l - k)%nat by lia.
  now rewrite H.
Qed.

(** ** The price window: capacity and order *)

Lemma combine_snoc {A B : Type} (l1 : list A) (l2 : list B) (a : A) (b : B) :
  length l1 = length l2 ->
  combine (l1 ++ [a]) (l2 ++ [b]) = combine l1 l2 ++ [(a, b)].
Proof.
  revert l2. induction l1 as [|x l1 IH]; intros [|y l2] H; simpl in *;
    try discriminate; [reflexivity|].
  f_equal. apply IH. now injection H.
Qed.

Lemma deque_append_maxlen {A : Type} (x : A) (d : deque A) :
  maxlen (deque_append x d) = maxlen d.
Proof. reflexivity. Qed.

Lemma deque_append_below {A : Type} (x : A) (d : deque A) :
  (length (items d) < maxlen d)%nat ->
  items (deque_append x d) = items d ++ [x].
Proof.
  intro H. unfold deque_append. cbn [items].
  rewrite length_app. cbn [length].
  destruct (Nat.ltb_spec (maxlen d) (length (items d) + 1)); [lia|reflexivity].
Qed.

Lemma deque_append_full {A : Type} (x : A) (d : deque A) :
  (maxlen d <= length (items d))%nat ->
  items (deque_append x d) = tl (items d ++ [x]).
Proof.
  intro H. unfold deque_append. cbn [items].
  rewrite length_app. cbn [length].
  destruct (Nat.ltb_spec (maxlen d) (length (items d) + 1)); [reflexivity|lia].
Qed.

Lemma deque_append_length {A : Type} (x : A) (d : deque A) :
  (length (items d) <= maxlen d)%nat ->
  length (items (deque_append x d)) = Nat.min (S (length (items d))) (maxlen d).
Proof.
  intro H. destruct (Nat.lt_ge_cases (length (items d)) (maxlen d)) as [Hlt|Hge].
  - rewrite deque_append_below by assumption. rewrite length_app. cbn [length]. lia.
  - rewrite deque_append_full by assumption.
    destruct (items d) as [|y r]; cbn [app tl length] in *.
    + lia.
    + rewrite length_app. cbn [length]. lia.
Qed.

Lemma new_analyzer_well_formed (n : nat) : well_formed (new_analyzer n).
Proof.
  unfold well_formed, new_analyzer. cbn. repeat split; lia.
Qed.

Lemma add_price_well_formed (now : instant) (p : Q) (ts : option instant)
  (self : TechnicalAnalyzer) :
  well_formed self -> well_formed (snd (add_price now p ts self)).
Proof.
  intros (Hp & Ht & Hlen & Hle). unfold well_formed, add_price.
  cbn [snd prices timestamps lookback_period].
  rewrite !deque_append_maxlen.
  rewrite !deque_append_length by lia.
  repeat split; try assumption; lia.
Qed.

Lemma add_prices_well_formed (obs : list observation) (self : TechnicalAnalyzer) :
  well_formed self -> well_formed (add_prices obs self).
Proof.
  revert self. induction obs as [|o obs IH]; intros self H; [exact H|].
  cbn [add_prices fold_left]. apply IH. now apply add_price_well_formed.
Qed.

Lemma add_prices_lookback (obs : list observation) (self : TechnicalAnalyzer) :
  lookback_period (add_prices obs self) = lookback_period self.
Proof.
  revert self. induction obs as [|o obs IH]; intros self; [reflexivity|].
  cbn [add_prices fold_left]. now rewrite IH.
Qed.

Lemma window_length (self : TechnicalAnalyzer) :
  well_formed self -> length (window self) = length (items (prices self)).
Proof.
  intros (_ & _ & Hlen & _). unfold window. rewrite length_combine. lia.
Qed.

Lemma tl_combine {A B : Type} (l1 : list A) (l2 : list B) :
  tl (combine l1 l2) = combine (tl l1) (tl l2).
Proof.
  destruct l1 as [|x l1]; [reflexivity|].
  destruct l2 as [|y l2]; [|reflexivity].
  cbn. now destruct l1.
Qed.

(** C7. Starting from a new analyzer of capacity [n], after any sequence of
    [add_price] calls the window holds at most [n] observations; one more
    call appends the new observation last, and when the window is at
    capacity it drops the oldest observation and keeps the others in
    order. *)
Theorem price_window_bounded_fifo
  (n : nat) (obs : list observation) (now : instant) (p : Q)
  (ts : option instant) (oldest : Q * instant) (rest : list (Q * instant)) :
  let self := add_prices obs (new_analyzer n) in
  let self' := snd (add_price now p ts self) in
  let t := match ts with None => now | Some t => t end in
  (length (window self) <= n)%nat /\
  ((length (window self) < n)%nat -> window self' = window self ++ [(p, t)]) /\
  (window self = oldest :: rest -> length (window self) = n ->
   window self' = rest ++ [(p, t)]).
Proof.
  intros self self' t.
  assert (Hwf : well_formed self)
    by (apply add_prices_well_formed, new_analyzer_well_formed).
  assert (Hn : lookback_period self = n) by apply add_prices_lookback.
  pose proof (window_length self Hwf) as Hw.
  destruct Hwf as (Hp & Ht & Hlen & Hle).
  split; [lia|]. split.
  - intro Hlt. unfold self', window, add_price.
    cbn [snd prices timestamps].
    rewrite !deque_append_below by lia.
    now apply combine_snoc.
  - intros Hfull Hcap. unfold self', window, add_price.
    cbn [snd prices timestamps].
    rewrite !deque_append_full by lia.
    rewrite <- tl_combine, combine_snoc by (symmetry; exact Hlen).
    fold (window self). rewrite Hfull. reflexivity.
Qed.

Lemma price_window_bounded_fifo_witness :
  window (snd (add_price 7%Z 3 None
                 (add_prices [(5%Z, 1, None); (6%Z, 2, None)] (new_analyzer 2))))
  = [(2, 6%Z); (3, 7%Z)].
Proof.
  apply (proj2 (proj2 (price_window_bounded_fifo 2 [(5%Z, 1, None); (6%Z, 2, None)]
                         7%Z 3 None (1, 5%Z) [(2, 6%Z)]))); reflexivity.
Defined.

(** ** Methods that only read the window *)

Lemma pure_ret {A : Type} (x : A) : pure_method (ret x).
Proof. intro self. reflexivity. Qed.

Lemma pure_raise {A : Type} (e : exn) : pure_method (@raise A e).
Proof. intro self. reflexivity. Qed.

Lemma pure_lift {A : Type} (r : result A) : pure_method (lift r).
Proof. intro self. reflexivity. Qed.

Lemma pure_self_prices : pure_method self_prices.
Proof. intro self. reflexivity. Qed.

Lemma pure_self_lookback_period : pure_method self_lookback_period.
Proof. intro self. reflexivity. Qed.

Lemma pure_bind {A B : Type} (m : M A) (k : A -> M B) :
  pure_method m -> (forall x, pure_method (k x)) -> pure_method (bind m k).
Proof.
  intros Hm Hk self. unfold bind. specialize (Hm self).
  destruct (m self) as [[x|e] self']; cbn [snd] in *; subst; [apply Hk|reflexivity].
Qed.

Lemma pure_try_except {A : Type} (m : M A) (h : exn -> M A) :
  pure_method m -> (forall e, pure_method (h e)) -> pure_method (try_except m h).
Proof.
  intros Hm Hh self. unfold try_except. specialize (Hm self).
  destruct (m self) as [[x|e] self']; cbn [snd] in *; subst; [reflexivity|apply Hh].
Qed.

Lemma determined_ret {A : Type} (x : A) : window_determined (ret x).
Proof. intros a b _. reflexivity. Qed.

Lemma determined_lift {A : Type} (r : result A) : window_determined (lift r).
Proof. intros a b _. reflexivity. Qed.

Lemma determined_self_prices : window_determined self_prices.
Proof. intros a b H. unfold self_prices. cbn. now rewrite H. Qed.

Lemma determined_bind {A B : Type} (m : M A) (k : A -> M B) :
  pure_method m -> window_determined m ->
  (forall x, window_determined (k x)) -> window_determined (bind m k).
Proof.
  intros Hp Hm Hk a b Hab. unfold bind.
  pose proof (Hp a) as Ha. pose proof (Hp b) as Hb. pose proof (Hm a b Hab) as Hv.
  destruct (m a) as [ra a'], (m b) as [rb b']. cbn [fst snd] in *. subst.
  destruct rb as [x|e]; [now apply Hk|reflexivity].
Qed.

Create HintDb reads discriminated.

#[local] Hint Resolve pure_ret pure_raise pure_lift pure_self_prices
  pure_self_lookback_period pure_bind pure_try_except
  determined_ret determined_lift determined_self_prices determined_bind : reads.

(** Go through the branches of a method body. *)
Ltac through_branches :=
  repeat match goal with
         | |- forall _, _ => intro
         | |- pure_method (if ?c then _ else _) => destruct c
         | |- window_determined (if ?c then _ else _) => destruct c
         | |- pure_method (match ?c with _ => _ end) => destruct c
         | |- window_determined (match ?c with _ => _ end) => destruct c
         | |- pure_method (bind _ _) => apply pure_bind
         | |- window_determined (bind _ _) => apply determined_bind
         | |- pure_method (try_except _ _) => apply pure_try_except
         | _ => solve [auto with reads]
         end.

Lemma calculate_sma_pure (period : option nat) : pure_method (calculate_sma period).
Proof. unfold calculate_sma. through_branches. Qed.

Lemma calculate_ema_pure (period : nat) : pure_method (calculate_ema period).
Proof. unfold calculate_ema. through_branches. Qed.

Lemma calculate_rsi_pure (period : nat) : pure_method (calculate_rsi period).
Proof. unfold calculate_rsi. through_branches. Qed.

Lemma get_trend_pure : pure_method get_trend.
Proof. unfold get_trend. through_branches. Qed.

Lemma analyze_support_resistance_pure (window_size : nat) :
  pure_method (analyze_support_resistance window_size).
Proof. unfold analyze_support_resistance. through_branches. Qed.

Lemma get_volatility_pure (sqrt : Q -> Q) (period : nat) :
  pure_method (get_volatility sqrt period).
Proof. unfold get_volatility. through_branches. Qed.

Lemma get_momentum_pure (period : nat) : pure_method (get_momentum period).
Proof. unfold get_momentum. through_branches. Qed.

Lemma send_to_lark_webhook_pure (sqrt : Q -> Q) (posted : bool) :
  pure_method (send_to_lark_webhook sqrt posted).
Proof.
  unfold send_to_lark_webhook.
  apply pure_try_except; [|intro; apply pure_ret].
  repeat (apply pure_bind;
          [ solve [auto using calculate_sma_pure, calculate_ema_pure,
                     calculate_rsi_pure, get_trend_pure,
                     analyze_support_resistance_pure, get_volatility_pure,
                     get_momentum_pure]
          | intro ]).
  apply pure_ret.
Qed.

Lemma calculate_sma_explicit_determined (period : nat) :
  window_determined (calculate_sma (Some period)).
Proof. unfold calculate_sma. through_branches. Qed.

Lemma calculate_ema_determined (period : nat) : window_determined (calculate_ema period).
Proof. unfold calculate_ema. through_branches. Qed.

Lemma calculate_rsi_determined (period : nat) : window_determined (calculate_rsi period).
Proof. unfold calculate_rsi. through_branches. Qed.

Lemma get_trend_determined : window_determined get_trend.
Proof. unfold get_trend. through_branches. Qed.

Lemma analyze_support_resistance_determined (window_size : nat) :
  window_determined (analyze_support_resistance window_size).
Proof. unfold analyze_support_resistance. through_branches. Qed.

Lemma get_volatility_determined (sqrt : Q -> Q) (period : nat) :
  window_determined (get_volatility sqrt period).
Proof. unfold get_volatility. through_branches. Qed.

Lemma get_momentum_determined (period : nat) : window_determined (get_momentum period).
Proof. unfold get_momentum. through_branches. Qed.

(** With no period given, a well-formed analyzer averages its whole window:
    the capacity read from [self] never undercuts the length. *)
Lemma calculate_sma_default (self : TechnicalAnalyzer) :
  well_formed self ->
  calculate_sma None self = calculate_sma (Some (length (items (prices self)))) self.
Proof.
  intros (_ & _ & _ & Hle). unfold calculate_sma, bind, self_prices,
    self_lookback_period, ret.
  now rewrite Nat.min_r by exact Hle.
Qed.

Lemma agrees_on_intro {A : Type} (m : M A) (a b : TechnicalAnalyzer) :
  pure_method m -> window_determined m ->
  items (prices a) = items (prices b) -> agrees_on m a b.
Proof.
  intros Hp Hd Hab. repeat split; [apply Hp|apply Hp|now apply Hd].
Qed.

(** C9. Every indicator (SMA, EMA, RSI, trend, support and resistance,
    volatility, momentum), whatever its arguments, leaves the analyzer as
    it found it, and on two analyzers holding the same prices (whatever
    their timestamps and capacities) it returns the same result. *)
Theorem indicators_pure_and_determined
  (sqrt : Q -> Q) (a b : TechnicalAnalyzer)
  (sma_period : option nat) (ema_period rsi_period window_size : nat)
  (volatility_period momentum_period : nat) :
  well_formed a -> well_formed b ->
  items (prices a) = items (prices b) ->
  agrees_on (calculate_sma sma_period) a b /\
  agrees_on (calculate_ema ema_period) a b /\
  agrees_on (calculate_rsi rsi_period) a b /\
  agrees_on get_trend a b /\
  agrees_on (analyze_support_resistance window_size) a b /\
  agrees_on (get_volatility sqrt volatility_period) a b /\
  agrees_on (get_momentum momentum_period) a b.
Proof.
  intros Ha Hb Hab.
  split; [|repeat split;
           first [ apply calculate_ema_pure | apply calculate_rsi_pure
                 | apply get_trend_pure | apply analyze_support_resistance_pure
                 | apply get_volatility_pure | apply get_momentum_pure
                 | now apply calculate_ema_determined
                 | now apply calculate_rsi_determined
                 | now apply get_trend_determined
                 | now apply analyze_support_resistance_determined
                 | now apply get_volatility_determined
                 | now apply get_momentum_determined ]].
  destruct sma_period as [p|].
  - apply agrees_on_intro;
      [apply calculate_sma_pure|apply calculate_sma_explicit_determined|exact Hab].
  - repeat split; try apply calculate_sma_pure.
    rewrite (calculate_sma_default a Ha), (calculate_sma_default b Hb), Hab.
    now apply calculate_sma_explicit_determined.
Qed.

Lemma indicators_pure_and_determined_witness :
  let a := window_of [3; 1; 4; 1; 5; 9]%Z in
  let b := add_prices [(1%Z, 3, None); (2%Z, 1, None); (3%Z, 4, Some 8%Z);
                       (4%Z, 1, None); (5%Z, 5, None); (6%Z, 9, None)]
                      (new_analyzer 7) in
  agrees_on (calculate_sma None) a b /\
  agrees_on (calculate_ema 12) a b /\
  agrees_on (calculate_rsi 14) a b /\
  agrees_on get_trend a b /\
  agrees_on (analyze_support_resistance 8) a b /\
  agrees_on (get_volatility (fun x => x) 5) a b /\
  agrees_on (get_momentum 5) a b.
Proof.
  intros a b.
  apply (indicators_pure_and_determined (fun x => x) a b None 12 14 8 5 5).
  - unfold well_formed. repeat split; try reflexivity. vm_compute. lia.
  - unfold well_formed. repeat split; try reflexivity. vm_compute. lia.
  - reflexivity.
Defined.

(** ** The polling loop: a failed fetch *)

(** The failures [get_hsk_price] reports as [None]: the handled exceptions,
    a payload that is not a list, an empty list, and a ticker with a field
    missing or not a number. *)
Lemma get_hsk_price_failures :
  get_hsk_price HTTPError = None /\
  get_hsk_price Timeout = None /\
  get_hsk_price ConnectionError = None /\
  get_hsk_price InvalidJSON = None /\
  get_hsk_price OtherFailure = None /\
  get_hsk_price JsonOther = None /\
  get_hsk_price (JsonList []) = None /\
  (forall t rest,
      last t = None \/ change_percentage t = None \/ lowest_ask t = None \/
      highest_bid t = None \/ high_24h t = None \/ low_24h t = None \/
      base_volume t = None \/ quote_volume t = None ->
      get_hsk_price (JsonList (t :: rest)) = None).
Proof.
  repeat split. intros [a b c d e f g h] rest H. cbn in *.
  destruct a, b, c, d, e, f, g, h; try reflexivity.
  repeat (destruct H as [H|H]; try discriminate).
Qed.

(** C6. In a cycle whose ticker fetch fails ([get_hsk_price] gives [None])
    nothing is appended: the analyzer, prices and timestamps, is after the
    cycle what it was before, and no update is sent. *)
Theorem fetch_failure_leaves_window
  (sqrt : Q -> Q) (now : instant) (response : ticker_response) (posted : bool)
  (self : TechnicalAnalyzer) :
  get_hsk_price response = None ->
  main_cycle sqrt now response posted self = (Ok false, self) /\
  window (snd (main_cycle sqrt now response posted self)) = window self.
Proof.
  intro H. unfold main_cycle. rewrite H. split; reflexivity.
Qed.

Lemma fetch_failure_leaves_window_witness :
  main_cycle (fun x => x) 9%Z Timeout true rising_15 = (Ok false, rising_15) /\
  window (snd (main_cycle (fun x => x) 9%Z Timeout true rising_15)) = window rising_15.
Proof.
  apply (fetch_failure_leaves_window (fun x => x) 9%Z Timeout true rising_15).
  reflexivity.
Defined.

(** A run of the loop in which every fetch fails leaves the analyzer as it
    was. *)
Lemma main_loop_all_failures (sqrt : Q -> Q)
  (cycles : list (instant * ticker_response * bool)) (self : TechnicalAnalyzer) :
  Forall (fun c => get_hsk_price (snd (fst c)) = None) cycles ->
  main_loop sqrt cycles self = self.
Proof.
  induction 1 as [|[[now response] posted] cycles Hc _ IH]; [reflexivity|].
  cbn [main_loop fst snd] in *. unfold main_cycle. now rewrite Hc.
Qed.

(** ** SMA with the default period *)

Lemma slice_last_all {A : Type} (l : list A) : slice_last (length l) l = l.
Proof.
  unfold slice_last. destruct (length l) eqn:E; [reflexivity|].
  now rewrite Nat.sub_diag.
Qed.

(** C10. With no period given, [calculate_sma] on an empty window takes the
    period [min(capacity, 0) = 0], passes the length guard and raises
    [ZeroDivisionError] instead of returning [None]; on a non-empty window
    it divides by the positive length of the window and returns the mean,
    so the error cannot occur. *)
Theorem sma_default_period_division (self : TechnicalAnalyzer) :
  well_formed self ->
  (items (prices self) = [] ->
   Nat.min (lookback_period self) (length (items (prices self))) = 0%nat /\
   calculate_sma None self = (Raise ZeroDivisionError, self)) /\
  (items (prices self) <> [] ->
   0 < Qnat (length (items (prices self))) /\
   calculate_sma None self =
   (Ok (Some (py_sum (items (prices self)) / Qnat (length (items (prices self))))),
    self)).
Proof.
  intro Hwf. split; intro H.
  - rewrite H. split; [apply Nat.min_0_r|].
    unfold calculate_sma, bind, self_prices, self_lookback_period, ret.
    rewrite H. cbn [length]. rewrite Nat.min_0_r. reflexivity.
  - assert (Hpos : (0 < length (items (prices self)))%nat)
      by (destruct (items (prices self)); [congruence|cbn; lia]).
    split; [now apply Qnat_pos|].
    rewrite (calculate_sma_default self Hwf).
    unfold calculate_sma, bind, self_prices, ret, lift.
    rewrite Nat.ltb_irrefl, slice_last_all.
    rewrite py_div_ok; [reflexivity|].
    intro E. apply Qnat_pos in Hpos. rewrite E in Hpos. now apply Qlt_irrefl in Hpos.
Qed.

Lemma sma_default_period_division_witness :
  calculate_sma None (new_analyzer 20) = (Raise ZeroDivisionError, new_analyzer 20) /\
  calculate_sma None (window_of [2; 4]%Z) =
  (Ok (Some (py_sum [2; 4] / Qnat 2)), window_of [2; 4]%Z).
Proof.
  split.
  - refine (proj2 (proj1 (sma_default_period_division (new_analyzer 20) _) _)).
    + unfold well_formed. repeat split; try reflexivity. vm_compute. lia.
    + reflexivity.
  - refine (proj2 (proj2 (sma_default_period_division (window_of [2; 4]%Z) _) _)).
    + unfold well_formed. repeat split; try reflexivity. vm_compute. lia.
    + vm_compute. discriminate.
Defined.

(** ** The interpretation composer *)

(** C5. With the trend [数据不足] and no SMA, no RSI, neither support nor
    resistance, no momentum and the K-line trend unknown, the composer
    produces the fallback statement and nothing else, whatever its other
    arguments. *)
Theorem fallback_statement_alone
  (format_6f format_2f : Q -> string) (current_price : Q) (volatility : option Q)
  (kline_volatility kline_support kline_resistance : string) :
  interpretations format_6f format_2f current_price "数据不足" None None
    (mkSupRes None None) volatility None
    "未知" kline_volatility kline_support kline_resistance
  = ["技术指标不足，建议观望"%string] /\
  generate_interpretation format_6f format_2f current_price "数据不足" None None
    (mkSupRes None None) volatility None
    "未知" kline_volatility kline_support kline_resistance
  = "市场解读: 技术指标不足，建议观望"%string.
Proof.
  split; reflexivity.
Qed.

Lemma truthy_zero (v : Q) : v == 0 -> truthy (Some v) = false.
Proof.
  intro H. unfold truthy. now rewrite (Qeq_eq_bool _ _ H).
Qed.

Lemma truthy_nonzero (v : Q) : ~ v == 0 -> truthy (Some v) = true.
Proof.
  intro H. unfold truthy. destruct (Qeq_bool v 0) eqn:E; [|reflexivity].
  apply Qeq_bool_iff in E. contradiction.
Qed.

(** The RSI block of the composer: nothing for an absent RSI and nothing for
    an RSI of zero; one statement, chosen by the thresholds 70 and 30, for
    any other value. *)
Lemma rsi_rule_cases (format_2f : Q -> string) (rsi : option Q) :
  match rsi with
  | None => rsi_rule format_2f rsi = []
  | Some v =>
      (v == 0 -> rsi_rule format_2f rsi = []) /\
      (~ v == 0 -> 70 < v ->
       rsi_rule format_2f rsi = ["RSI超买(" ++ format_2f v ++ ")，可能出现回调"]%string) /\
      (~ v == 0 -> v < 30 ->
       rsi_rule format_2f rsi = ["RSI超卖(" ++ format_2f v ++ ")，可能出现反弹"]%string) /\
      (30 <= v <= 70 ->
       rsi_rule format_2f rsi = ["RSI中性(" ++ format_2f v ++ ")，趋势稳定"]%string)
  end.
Proof.
  destruct rsi as [v|]; [|reflexivity].
  unfold rsi_rule. repeat split.
  - intro H. now rewrite (truthy_zero v H).
  - intros H0 H. rewrite (truthy_nonzero v H0).
    apply Qlt_bool_iff in H. now rewrite H.
  - intros H0 H. rewrite (truthy_nonzero v H0).
    assert (H70 : Qlt_bool 70 v = false) by (apply Qlt_bool_false_iff; lra).
    apply Qlt_bool_iff in H. now rewrite H70, H.
  - intros [H30 H70]. rewrite truthy_nonzero by lra.
    assert (E70 : Qlt_bool 70 v = false) by (apply Qlt_bool_false_iff; lra).
    assert (E30 : Qlt_bool v 30 = false) by (apply Qlt_bool_false_iff; lra).
    now rewrite E70, E30.
Qed.

(** C4. On fifteen strictly falling prices [calculate_rsi] returns an RSI
    that is present and equal to zero, below the oversold threshold; the
    composer then emits no RSI statement at all: its output for that RSI
    is the output for an absent one. *)
Theorem rsi_zero_statement_omitted
  (format_6f format_2f : Q -> string) (current_price : Q) (trend : string)
  (sma : option Q) (sr : sup_res) (volatility momentum : option Q)
  (kline_trend kline_volatility kline_support kline_resistance : string) :
  exists rsi : Q,
    calculate_rsi 14 falling_15 = (Ok (Some rsi), falling_15) /\
    rsi == 0 /\ rsi < 30 /\
    rsi_rule format_2f (Some rsi) = [] /\
    generate_interpretation format_6f format_2f current_price trend sma (Some rsi)
      sr volatility momentum kline_trend kline_volatility kline_support
      kline_resistance
    = generate_interpretation format_6f format_2f current_price trend sma None
      sr volatility momentum kline_trend kline_volatility kline_support
      kline_resistance.
Proof.
  exists (0 # 196). repeat split.
Qed.

(** ** RSI: how much history it needs *)

Lemma Forall_skipn_list {A : Type} (P : A -> Prop) (n : nat) (l : list A) :
  Forall P l -> Forall P (skipn n l).
Proof.
  revert l. induction n as [|n IH]; intros l H; [exact H|].
  destruct l as [|x l]; [constructor|]. cbn. apply IH. now inversion H.
Qed.

Lemma Forall_slice_last {A : Type} (P : A -> Prop) (n : nat) (l : list A) :
  Forall P l -> Forall P (slice_last n l).
Proof.
  intro H. destruct n; [exact H|]. now apply Forall_skipn_list.
Qed.

Lemma fold_plus_nonneg (l : list Q) (acc : Q) :
  Forall nonneg l -> 0 <= acc -> 0 <= fold_left Qplus l acc.
Proof.
  revert acc. induction l as [|x l IH]; intros acc Hl Hacc; [exact Hacc|].
  inversion Hl as [|? ? Hx Hr]; subst. cbn. apply IH; [exact Hr|].
  unfold nonneg in Hx. lra.
Qed.

Lemma py_sum_nonneg (l : list Q) : Forall nonneg l -> 0 <= py_sum l.
Proof.
  intro H. unfold py_sum. apply fold_plus_nonneg; [exact H|lra].
Qed.

Lemma Forall_snoc {A : Type} (P : A -> Prop) (l : list A) (x : A) :
  Forall P l -> P x -> Forall P (l ++ [x]).
Proof.
  intros Hl Hx. apply Forall_app. split; [exact Hl|]. now constructor.
Qed.

(** The loop over [range(s, s + k)] with [1 <= s] and [s + k <= len]:
    no index is skipped, none is out of range, and every pass adds one
    entry, not negative, to each list. *)
Lemma rsi_loop_total (ps : list Q) (k : nat) :
  forall (s : nat) (gains losses : list Q),
    (1 <= s)%nat -> (s + k <= length ps)%nat ->
    Forall nonneg gains -> Forall nonneg losses ->
    exists gains' losses',
      rsi_loop ps (seq s k) gains losses = Ok (gains', losses') /\
      length gains' = (length gains + k)%nat /\
      length losses' = (length losses + k)%nat /\
      Forall nonneg gains' /\ Forall nonneg losses'.
Proof.
  induction k as [|k IH]; intros s gains losses Hs Hlen Hg Hl.
  - exists gains, losses. cbn. repeat split; auto; lia.
  - cbn [seq rsi_loop].
    destruct (Nat.eqb_spec s 0) as [E|_]; [lia|].
    destruct (nth_error ps s) as [p_i|] eqn:Ei;
      [|apply nth_error_None in Ei; lia].
    destruct (nth_error ps (s - 1)) as [p_prev|] eqn:Ep;
      [|apply nth_error_None in Ep; lia].
    rewrite (py_getitem_nat ps s p_i Ei). cbn [rbind].
    replace (Z.of_nat s - 1)%Z with (Z.of_nat (s - 1)) by lia.
    rewrite (py_getitem_nat ps (s - 1) p_prev Ep). cbn [rbind].
    destruct (Qlt_bool p_prev p_i) eqn:Ecmp.
    + apply Qlt_bool_iff in Ecmp.
      destruct (IH (S s) (gains ++ [p_i - p_prev]) (losses ++ [0]))
        as (g' & l' & Hrun & Hlg & Hll & Hfg & Hfl); try lia.
      * apply Forall_snoc; [exact Hg|]. unfold nonneg. lra.
      * apply Forall_snoc; [exact Hl|]. unfold nonneg. lra.
      * exists g', l'. rewrite Hrun, Hlg, Hll, !length_app. cbn [length].
        repeat split; auto; lia.
    + apply Qlt_bool_false_iff in Ecmp.
      destruct (IH (S s) (gains ++ [0]) (losses ++ [p_prev - p_i]))
        as (g' & l' & Hrun & Hlg & Hll & Hfg & Hfl); try lia.
      * apply Forall_snoc; [exact Hg|]. unfold nonneg. lra.
      * apply Forall_snoc; [exact Hl|]. unfold nonneg. lra.
      * exists g', l'. rewrite Hrun, Hlg, Hll, !length_app. cbn [length].
        repeat split; auto; lia.
Qed.

Lemma Qdiv_nonneg (x y : Q) : 0 <= x -> 0 < y -> 0 <= x / y.
Proof.
  intros Hx Hy. apply Qle_shift_div_l; [exact Hy|]. lra.
Qed.

(** The value the last lines of [calculate_rsi] compute lies in [0, 100]. *)
Lemma rsi_value_range (avg_gain avg_loss : Q) :
  0 <= avg_gain -> 0 < avg_loss ->
  0 < 1 + avg_gain / avg_loss /\
  0 <= 100 - 100 / (1 + avg_gain / avg_loss) <= 100.
Proof.
  intros Hg Hl.
  pose proof (Qdiv_nonneg avg_gain avg_loss Hg Hl) as Hrs.
  set (rs := avg_gain / avg_loss) in *.
  assert (Hpos : 0 < 1 + rs) by lra.
  assert (H1 : 100 / (1 + rs) <= 100).
  { apply Qle_shift_div_r; [exact Hpos|]. lra. }
  assert (H2 : 0 <= 100 / (1 + rs)) by (apply Qdiv_nonneg; lra).
  repeat split; lra.
Qed.

(** C1. For a period of at least one, [calculate_rsi] returns [None] when
    the window holds fewer than [period + 1] prices, and with [period + 1]
    prices or more the loop visits [period] indices, none of them 0, the
    gains and losses lists have [period] entries each, and the function
    returns a number between 0 and 100. *)
Theorem rsi_history_requirement (period : nat) (self : TechnicalAnalyzer) :
  (1 <= period)%nat ->
  let ps := items (prices self) in
  ((length ps < period + 1)%nat -> calculate_rsi period self = (Ok None, self)) /\
  ((period + 1 <= length ps)%nat ->
   exists gains losses rsi,
     rsi_loop ps (py_range (length ps - period) (length ps)) [] []
     = Ok (gains, losses) /\
     length gains = period /\ length losses = period /\
     calculate_rsi period self = (Ok (Some rsi), self) /\
     0 <= rsi <= 100).
Proof.
  intros Hperiod ps. split; intro Hlen.
  - unfold calculate_rsi, bind, self_prices, ret. fold ps.
    destruct (Nat.ltb_spec (length ps) (period + 1)); [reflexivity|lia].
  - destruct (rsi_loop_total ps period (length ps - period) [] [])
      as (gains & losses & Hrun & Hlg & Hll & Hfg & Hfl);
      try lia; try constructor.
    assert (Hrange : py_range (length ps - period) (length ps)
                     = seq (length ps - period) period).
    { unfold py_range. f_equal. lia. }
    cbn [length Nat.add] in Hlg, Hll.
    assert (Hq : ~ Qnat period == 0).
    { intro E. pose proof (Qnat_pos period Hperiod) as Hp. rewrite E in Hp.
      now apply Qlt_irrefl in Hp. }
    set (avg_gain := py_sum (slice_last period gains) / Qnat period).
    set (avg_loss := py_sum (slice_last period losses) / Qnat period).
    assert (Hag : 0 <= avg_gain).
    { apply Qdiv_nonneg; [|now apply Qnat_pos].
      now apply py_sum_nonneg, Forall_slice_last. }
    assert (Hal : 0 <= avg_loss).
    { apply Qdiv_nonneg; [|now apply Qnat_pos].
      now apply py_sum_nonneg, Forall_slice_last. }
    assert (Hcalc : calculate_rsi period self =
                    (if Qeq_bool avg_loss 0 then Ok (Some 100)
                     else rbind (py_div avg_gain avg_loss) (fun rs =>
                          rbind (py_div 100 (1 + rs)) (fun q =>
                          Ok (Some (100 - q)))), self)).
    { unfold calculate_rsi, bind, self_prices, ret, lift. fold ps.
      destruct (Nat.ltb_spec (length ps) (period + 1)); [lia|].
      rewrite Hrange, Hrun. cbn [fst snd]. rewrite Hlg, Hll, Nat.ltb_irrefl.
      cbn [orb]. rewrite !py_div_ok by exact Hq.
      fold avg_gain avg_loss.
      destruct (Qeq_bool avg_loss 0); [reflexivity|].
      destruct (py_div avg_gain avg_loss); cbn [rbind]; [|reflexivity].
      destruct (py_div 100 (1 + a)); reflexivity. }
    destruct (Qeq_bool avg_loss 0) eqn:Ez.
    + exists gains, losses, 100. rewrite Hrange.
      repeat split; auto; lra.
    + apply Qeq_bool_neq in Ez.
      assert (Hlpos : 0 < avg_loss).
      { destruct (Qlt_le_dec 0 avg_loss) as [Hlt|Hle]; [exact Hlt|].
        exfalso. apply Ez. lra. }
      destruct (rsi_value_range avg_gain avg_loss Hag Hlpos) as (Hden & Hlo & Hhi).
      exists gains, losses, (100 - 100 / (1 + avg_gain / avg_loss)).
      rewrite Hrange, Hcalc, (py_div_ok avg_gain avg_loss Ez). cbn [rbind].
      rewrite py_div_ok by lra. cbn [rbind].
      repeat split; auto.
Qed.

Lemma rsi_history_requirement_witness :
  calculate_rsi 14 (window_of [5; 4; 6]%Z) = (Ok None, window_of [5; 4; 6]%Z) /\
  exists gains losses rsi,
    rsi_loop (items (prices falling_15))
      (py_range (length (items (prices falling_15)) - 14)
                (length (items (prices falling_15)))) [] []
    = Ok (gains, losses) /\
    length gains = 14%nat /\ length losses = 14%nat /\
    calculate_rsi 14 falling_15 = (Ok (Some rsi), falling_15) /\
    0 <= rsi <= 100.
Proof.
  split.
  - refine (proj1 (rsi_history_requirement 14 (window_of [5; 4; 6]%Z) _) _).
    + lia.
    + vm_compute. lia.
  - refine (proj2 (rsi_history_requirement 14 falling_15 _) _).
    + lia.
    + vm_compute. lia.
Defined.

(** The claim that a window of exactly [period + 1] prices gives gains and
    losses of [period - 1] entries and no RSI fails on fifteen rising
    prices: both lists have fourteen entries and the RSI is 100. *)
Lemma rsi_present_with_period_plus_one_prices :
  length (items (prices rising_15)) = (14 + 1)%nat /\
  (exists gains losses,
      rsi_loop (items (prices rising_15)) (py_range (15 - 14) 15) [] []
      = Ok (gains, losses) /\
      length gains = 14%nat /\ length losses = 14%nat) /\
  fst (calculate_rsi 14 rising_15) = Ok (Some 100) /\
  fst (calculate_rsi 14 rising_15) <> Ok None.
Proof.
  split; [reflexivity|]. split.
  - eexists. eexists. split; [vm_compute; reflexivity|]. split; reflexivity.
  - split; [reflexivity|]. vm_compute. discriminate.
Qed.

(** ** Trend: the scale of the prices *)






Lemma slice_last_length {A : Type} (n : nat) (l : list A) :
  (0 < n)%nat -> length (slice_last n l) = Nat.min n (length l).
Proof.
  intro Hn. unfold slice_last. destruct n; [lia|].
  rewrite length_skipn. lia.
Qed.

Lemma get_trend_five (self : TechnicalAnalyzer) (x0 x1 x2 x3 x4 : Q) :
  slice_last 5 (items (prices self)) = [x0; x1; x2; x3; x4] ->
  get_trend self = (Ok (trend_of_five x0 x1 x2 x3 x4), self).
Proof.
  intro H.
  assert (Hlen : (5 <= length (items (prices self)))%nat).
  { pose proof (slice_last_length 5 (items (prices self)) ltac:(lia)) as L.
    rewrite H in L. cbn [length] in L. lia. }
  unfold get_trend, bind, self_prices, ret, lift, trend_of_five.
  destruct (Nat.ltb_spec (length (items (prices self))) 5); [lia|].
  rewrite H.
  destruct (len_set [x0; x1; x2; x3; x4] =? 1)%nat; [reflexivity|].
  change (py_getitem [x0; x1; x2; x3; x4] (-1)) with (Ok x4).
  change (py_getitem [x0; x1; x2; x3; x4] 0) with (Ok x0).
  change (py_getitem [x0; x1; x2; x3; x4] (-2)) with (Ok x3).
  cbv beta iota.
  destruct (Qlt_bool x0 x4);
    [destruct (Qlt_bool x3 x4)|destruct (Qlt_bool x4 x3)]; reflexivity.
Qed.





(** ** Extrema and sorting *)

Lemma greatest_of_unique (m m' : Q) (l l' : list Q) :
  greatest_of m l -> greatest_of m' l' -> incl l l' -> incl l' l -> m == m'.
Proof.
  intros [Hin Hmax] [Hin' Hmax'] H1 H2.
  apply Qle_antisym; [apply Hmax', H1, Hin|apply Hmax, H2, Hin'].
Qed.

Lemma least_of_unique (m m' : Q) (l l' : list Q) :
  least_of m l -> least_of m' l' -> incl l l' -> incl l' l -> m == m'.
Proof.
  intros [Hin Hmin] [Hin' Hmin'] H1 H2.
  apply Qle_antisym; [apply Hmin, H2, Hin'|apply Hmin', H1, Hin].
Qed.

Lemma fold_max_spec (r : list Q) :
  forall x,
    greatest_of
      (fold_left (fun best y => if Qlt_bool best y then y else best) r x) (x :: r).
Proof.
  induction r as [|y r IH]; intro x.
  - cbn. split; [now left|]. intros z [<-|[]]. apply Qle_refl.
  - cbn [fold_left]. destruct (Qlt_bool x y) eqn:E.
    + apply Qlt_bool_iff in E. destruct (IH y) as [Hin Hmax]. split.
      * right. exact Hin.
      * intros z [<-|Hz]; [|now apply Hmax].
        apply Qle_trans with y; [now apply Qlt_le_weak|]. apply Hmax. now left.
    + apply Qlt_bool_false_iff in E. destruct (IH x) as [Hin Hmax]. split.
      * destruct Hin as [<-|Hin]; [now left|]. right. now right.
      * intros z [<-|[<-|Hz]].
        -- apply Hmax. now left.
        -- apply Qle_trans with x; [exact E|]. apply Hmax. now left.
        -- apply Hmax. now right.
Qed.

Lemma fold_min_spec (r : list Q) :
  forall x,
    least_of
      (fold_left (fun best y => if Qlt_bool y best then y else best) r x) (x :: r).
Proof.
  induction r as [|y r IH]; intro x.
  - cbn. split; [now left|]. intros z [<-|[]]. apply Qle_refl.
  - cbn [fold_left]. destruct (Qlt_bool y x) eqn:E.
    + apply Qlt_bool_iff in E. destruct (IH y) as [Hin Hmin]. split.
      * right. exact Hin.
      * intros z [<-|Hz]; [|now apply Hmin].
        apply Qle_trans with y; [|now apply Qlt_le_weak]. apply Hmin. now left.
    + apply Qlt_bool_false_iff in E. destruct (IH x) as [Hin Hmin]. split.
      * destruct Hin as [<-|Hin]; [now left|]. right. now right.
      * intros z [<-|[<-|Hz]].
        -- apply Hmin. now left.
        -- apply Qle_trans with x; [|exact E]. apply Hmin. now left.
        -- apply Hmin. now right.
Qed.

Lemma py_max_greatest (l : list Q) :
  l <> [] -> exists m, py_max l = Ok m /\ greatest_of m l.
Proof.
  destruct l as [|x r]; [congruence|]. intros _.
  eexists. split; [reflexivity|apply fold_max_spec].
Qed.

Lemma py_min_least (l : list Q) :
  l <> [] -> exists m, py_min l = Ok m /\ least_of m l.
Proof.
  destruct l as [|x r]; [congruence|]. intros _.
  eexists. split; [reflexivity|apply fold_min_spec].
Qed.

Lemma insert_sorted_In (x y : Q) (l : list Q) :
  In y (insert_sorted x l) <-> y = x \/ In y l.
Proof.
  induction l as [|z l IH]; cbn.
  - intuition.
  - destruct (Qlt_bool x z); cbn; [intuition|]. rewrite IH. intuition.
Qed.

Lemma insert_sorted_sorted (x : Q) (l : list Q) :
  StronglySorted Qle l -> StronglySorted Qle (insert_sorted x l).
Proof.
  induction 1 as [|z l Hs IH Hz]; cbn.
  - repeat constructor.
  - destruct (Qlt_bool x z) eqn:E.
    + apply Qlt_bool_iff in E. constructor; [now constructor|].
      constructor; [now apply Qlt_le_weak|].
      eapply Forall_impl; [|exact Hz]. intros a Ha.
      apply Qle_trans with z; [now apply Qlt_le_weak|exact Ha].
    + apply Qlt_bool_false_iff in E. constructor; [exact IH|].
      apply Forall_forall. intros a Ha. apply insert_sorted_In in Ha.
      destruct Ha as [->|Ha]; [exact E|].
      rewrite Forall_forall in Hz. now apply Hz.
Qed.

Lemma fold_insert_spec (l : list Q) :
  forall acc,
    StronglySorted Qle acc ->
    StronglySorted Qle (fold_left (fun acc x => insert_sorted x acc) l acc) /\
    forall y, In y (fold_left (fun acc x => insert_sorted x acc) l acc)
              <-> In y acc \/ In y l.
Proof.
  induction l as [|x l IH]; intros acc Hacc; cbn [fold_left].
  - split; [exact Hacc|]. intro y. cbn. intuition.
  - destruct (IH (insert_sorted x acc) (insert_sorted_sorted x acc Hacc))
      as [Hs Hin].
    split; [exact Hs|]. intro y. rewrite Hin, insert_sorted_In. cbn. intuition.
Qed.

Lemma py_sorted_sorted (l : list Q) : StronglySorted Qle (py_sorted l).
Proof. apply fold_insert_spec. constructor. Qed.

Lemma py_sorted_In (l : list Q) (y : Q) : In y (py_sorted l) <-> In y l.
Proof.
  unfold py_sorted.
  destruct (fold_insert_spec l [] (SSorted_nil Qle)) as [_ H].
  rewrite H. cbn. intuition.
Qed.

Lemma sorted_last_greatest (l : list Q) :
  StronglySorted Qle l -> l <> [] -> greatest_of (List.last l 0) l.
Proof.
  induction 1 as [|x l Hs IH Hx]; [congruence|]. intros _.
  destruct l as [|y l].
  - cbn. split; [now left|]. intros z [<-|[]]. apply Qle_refl.
  - destruct IH as [Hin Hmax]; [discriminate|].
    change (List.last (x :: y :: l) 0) with (List.last (y :: l) 0).
    split; [now right|]. intros z [<-|Hz]; [|now apply Hmax].
    rewrite Forall_forall in Hx. now apply Hx.
Qed.

Lemma sorted_first_least (x : Q) (l : list Q) :
  StronglySorted Qle (x :: l) -> least_of x (x :: l).
Proof.
  intro H. apply StronglySorted_inv in H. destruct H as [_ Hx].
  split; [now left|]. intros z [<-|Hz]; [apply Qle_refl|].
  rewrite Forall_forall in Hx. now apply Hx.
Qed.

Lemma first_or_none_firstn (n : nat) (l : list Q) :
  first_or_none (firstn (S n) l) = first_or_none l.
Proof. now destruct l. Qed.

Lemma first_or_none_rev (l : list Q) :
  l <> [] -> first_or_none (rev l) = Some (List.last l 0).
Proof.
  intro H. destruct (exists_last H) as (l' & a & ->).
  now rewrite rev_unit, last_last.
Qed.

(** The first of the values sorted in descending order is a greatest one,
    the first of the values sorted in ascending order a least one. *)
Lemma sorted_reverse_first (l : list Q) :
  l <> [] ->
  exists m, first_or_none (firstn 5 (py_sorted_reverse l)) = Some m /\
            greatest_of m l.
Proof.
  intro H. unfold py_sorted_reverse. rewrite first_or_none_firstn.
  assert (Hne : py_sorted (rev l) <> []).
  { intro E. destruct l as [|x l]; [congruence|].
    assert (Hx : In x (py_sorted (rev (x :: l))))
      by (apply (proj2 (py_sorted_In _ _)); apply (proj1 (in_rev (x :: l) x)); now left).
    rewrite E in Hx. exact Hx. }
  rewrite first_or_none_rev by exact Hne.
  eexists. split; [reflexivity|].
  destruct (sorted_last_greatest _ (py_sorted_sorted (rev l)) Hne) as [Hin Hmax].
  split.
  - apply (proj1 (py_sorted_In _ _)) in Hin. exact (proj2 (in_rev l _) Hin).
  - intros y Hy. apply Hmax. apply (proj2 (py_sorted_In _ _)).
    exact (proj1 (in_rev l y) Hy).
Qed.

Lemma sorted_first (l : list Q) :
  l <> [] ->
  exists m, first_or_none (firstn 5 (py_sorted l)) = Some m /\ least_of m l.
Proof.
  intro H. rewrite first_or_none_firstn.
  pose proof (py_sorted_sorted l) as Hs.
  destruct (py_sorted l) as [|x s] eqn:E.
  - destruct l as [|y l]; [congruence|].
    assert (Hy : In y (py_sorted (y :: l)))
      by (apply (proj2 (py_sorted_In _ _)); now left).
    rewrite E in Hy. destruct Hy.
  - exists x. split; [reflexivity|].
    destruct (sorted_first_least x s Hs) as [Hin Hmin]. split.
    + apply (proj1 (py_sorted_In l x)). rewrite E. exact Hin.
    + intros y Hy. apply Hmin. rewrite <- E. now apply (proj2 (py_sorted_In l y)).
Qed.

(** ** Trailing windows of a batch *)

Lemma In_skipn_list {A : Type} (n : nat) (l : list A) (x : A) :
  In x (skipn n l) -> In x l.
Proof.
  revert l. induction n as [|n IH]; intros l H; [exact H|].
  destruct l as [|y l]; [exact H|]. right. now apply IH.
Qed.

Lemma In_firstn_list {A : Type} (n : nat) (l : list A) (x : A) :
  In x (firstn n l) -> In x l.
Proof.
  revert l. induction n as [|n IH]; intros l H; [destruct H|].
  destruct l as [|y l]; [exact H|].
  destruct H as [<-|H]; [now left|]. right. now apply IH.
Qed.

Lemma slice_In {A : Type} (lo hi : nat) (l : list A) (x : A) :
  In x (slice lo hi l) -> In x l.
Proof.
  intro H. unfold slice in H. eapply In_skipn_list, In_firstn_list, H.
Qed.

(** The trailing window ending at [i] holds the [i]-th element. *)
Lemma trailing_window_holds {A : Type} (l : list A) (i : nat) (x : A) :
  nth_error l i = Some x -> In x (slice (Nat.max 0 (i - 5)) (i + 1) l).
Proof.
  intro H. apply nth_error_In with (n := (i - Nat.max 0 (i - 5))%nat).
  unfold slice. rewrite nth_error_firstn.
  destruct (Nat.ltb_spec (i - Nat.max 0 (i - 5)) (i + 1 - Nat.max 0 (i - 5))); [|lia].
  rewrite nth_error_skipn. rewrite <- H. f_equal. lia.
Qed.

Lemma Forall2_In_l {A B : Type} (P : A -> B -> Prop) (l : list A) (l' : list B) (x : A) :
  Forall2 P l l' -> In x l -> exists y, In y l' /\ P x y.
Proof.
  induction 1 as [|a b l l' Hab H IH]; intros Hx; [destruct Hx|].
  destruct Hx as [<-|Hx].
  - exists b. split; [now left|exact Hab].
  - destruct (IH Hx) as (y & Hy & Hp). exists y. split; [now right|exact Hp].
Qed.

Lemma Forall2_In_r {A B : Type} (P : A -> B -> Prop) (l : list A) (l' : list B) (y : B) :
  Forall2 P l l' -> In y l' -> exists x, In x l /\ P x y.
Proof.
  induction 1 as [|a b l l' Hab H IH]; intros Hy; [destruct Hy|].
  destruct Hy as [<-|Hy].
  - exists a. split; [now left|exact Hab].
  - destruct (IH Hy) as (x & Hx & Hp). exists x. split; [now right|exact Hp].
Qed.

Lemma result_map_total {A B : Type} (f : A -> result B) (P : A -> B -> Prop)
  (l : list A) :
  (forall x, In x l -> exists y, f x = Ok y /\ P x y) ->
  exists ys, result_map f l = Ok ys /\ Forall2 P l ys.
Proof.
  induction l as [|x l IH]; intro H.
  - exists []. split; [reflexivity|constructor].
  - destruct (H x (or_introl eq_refl)) as (y & Hy & Hp).
    destruct IH as (ys & Hys & Hf); [intros z Hz; apply H; now right|].
    exists (y :: ys). cbn. rewrite Hy. cbn. rewrite Hys. cbn.
    split; [reflexivity|now constructor].
Qed.

Section TrailingExtrema.

(** An order ([<=] for maxima, [>=] for minima) and an extremum function
    that returns an extreme element of any non-empty list. *)
Variable R : Q -> Q -> Prop.
Variable extremum : list Q -> result Q.

Hypothesis R_trans : forall x y z, R x y -> R y z -> R x z.
Hypothesis extremum_spec :
  forall l, l <> [] -> exists m, extremum l = Ok m /\ extreme_of R m l.

(** The per-index extrema are computed without error, one per close, and
    an extreme one among them is an extreme close of the whole batch. *)
Lemma trailing_extrema_spec (closes : list Q) :
  closes <> [] ->
  exists es,
    trailing_extrema extremum closes = Ok es /\
    es <> [] /\
    forall m, extreme_of R m es -> extreme_of R m closes.
Proof.
  intro Hne. unfold trailing_extrema, py_range. rewrite Nat.sub_0_r.
  set (win := fun i => slice (Nat.max 0 (i - 5)) (i + 1) closes).
  destruct (result_map_total (fun i => extremum (win i))
              (fun i e => extreme_of R e (win i)) (seq 0 (length closes)))
    as (es & Hes & Hall).
  { intros i Hi. apply in_seq in Hi. apply extremum_spec.
    destruct (nth_error closes i) as [x|] eqn:E;
      [|apply nth_error_None in E; lia].
    intro Hw. pose proof (trailing_window_holds closes i x E) as Hx.
    fold (win i) in Hx. rewrite Hw in Hx. exact Hx. }
  exists es. split; [exact Hes|]. split.
  - intro E. subst es. apply Forall2_length in Hall.
    rewrite length_seq in Hall. destruct closes; [congruence|discriminate].
  - intros m [Hin Hmax]. split.
    + destruct (Forall2_In_r _ _ _ m Hall Hin) as (i & _ & [Hm _]).
      exact (slice_In _ _ _ _ Hm).
    + intros y Hy. destruct (In_nth_error closes y Hy) as (i & Hi).
      assert (Hseq : In i (seq 0 (length closes))).
      { apply in_seq. split; [lia|]. cbn. apply nth_error_Some. congruence. }
      destruct (Forall2_In_l _ _ _ i Hall Hseq) as (e & He & [_ Hle]).
      apply R_trans with e; [|now apply Hmax].
      apply Hle. now apply trailing_window_holds.
Qed.

End TrailingExtrema.

Lemma trailing_highs_spec (closes : list Q) :
  closes <> [] ->
  exists highs,
    trailing_extrema py_max closes = Ok highs /\ highs <> [] /\
    forall m, greatest_of m highs -> greatest_of m closes.
Proof.
  apply (trailing_extrema_spec Qle py_max Qle_trans py_max_greatest).
Qed.

Lemma trailing_lows_spec (closes : list Q) :
  closes <> [] ->
  exists lows,
    trailing_extrema py_min closes = Ok lows /\ lows <> [] /\
    forall m, least_of m lows -> least_of m closes.
Proof.
  apply (trailing_extrema_spec (fun y m => m <= y) py_min).
  - intros x y z Hxy Hyz. now apply Qle_trans with y.
  - exact py_min_least.
Qed.

(** ** The K-line summary *)

Lemma py_getitem_hd (l : list Q) : l <> [] -> py_getitem l 0 = Ok (hd 0 l).
Proof.
  destruct l as [|x r]; [congruence|]. intros _.
  now apply (py_getitem_nat (x :: r) 0 x).
Qed.

Lemma nth_error_last (l : list Q) :
  l <> [] -> nth_error l (length l - 1) = Some (List.last l 0).
Proof.
  intro H. destruct (exists_last H) as (l' & a & ->).
  rewrite last_last, length_app. cbn [length].
  rewrite nth_error_app2 by lia.
  replace (length l' + 1 - 1 - length l')%nat with 0%nat by lia. reflexivity.
Qed.

Lemma py_getitem_last (l : list Q) : l <> [] -> py_getitem l (-1) = Ok (List.last l 0).
Proof.
  intro H. apply (py_getitem_from_end l 1).
  - destruct l; [congruence|cbn; lia].
  - now apply nth_error_last.
Qed.

Lemma recent_closes_nonempty (closes : list Q) :
  closes <> [] -> recent_closes_of closes <> [].
Proof.
  intros H E. unfold recent_closes_of in E.
  destruct (Nat.leb_spec 10 (length closes)) as [Hle|_]; [|congruence].
  pose proof (slice_last_length 10 closes ltac:(lia)) as L.
  rewrite E in L. cbn [length] in L. lia.
Qed.

Lemma py_stdev_total (sqrt : Q -> Q) (l : list Q) :
  (2 <= length l)%nat -> exists v, py_stdev sqrt l = Ok v.
Proof.
  intro H. unfold py_stdev.
  destruct (Nat.ltb_spec (length l) 2); [lia|]. eexists. reflexivity.
Qed.

(** On a batch of at least two closes whose first close is not zero, every
    step of [get_kline_analysis] succeeds; the trend compares the ends of
    the recent slice strictly, and the levels are the first of the sorted
    per-index extrema. *)
Lemma kline_locals_total (sqrt : Q -> Q) (closes : list Q) :
  (2 <= length closes)%nat ->
  ~ hd 0 closes == 0 ->
  exists highs lows volatility,
    trailing_extrema py_max closes = Ok highs /\
    trailing_extrema py_min closes = Ok lows /\
    highs <> [] /\ lows <> [] /\
    (forall m, greatest_of m highs -> greatest_of m closes) /\
    (forall m, least_of m lows -> least_of m closes) /\
    kline_locals sqrt closes =
    Ok (mkKline
          (if Qlt_bool (hd 0 (recent_closes_of closes))
                       (List.last (recent_closes_of closes) 0)
           then "看涨"%string else "看跌"%string)
          volatility
          (first_or_none (firstn 5 (py_sorted lows)))
          (first_or_none (firstn 5 (py_sorted_reverse highs)))).
Proof.
  intros Hlen Hfirst.
  assert (Hne : closes <> []) by (destruct closes; [cbn in Hlen; lia|discriminate]).
  destruct (trailing_highs_spec closes Hne) as (highs & Hhighs & Hhne & Hhmax).
  destruct (trailing_lows_spec closes Hne) as (lows & Hlows & Hlne & Hlmin).
  destruct (py_max_greatest closes Hne) as (hi & Hhi & _).
  destruct (py_min_least closes Hne) as (lo & Hlo & _).
  destruct (py_stdev_total sqrt closes Hlen) as (v & Hv).
  exists highs, lows, v. repeat (split; [assumption|]).
  unfold kline_locals. fold (recent_closes_of closes).
  rewrite (py_getitem_hd closes Hne), (py_getitem_last closes Hne), Hhi, Hlo.
  cbn [rbind]. rewrite (py_div_ok _ _ Hfirst). cbn [rbind].
  rewrite (py_getitem_last _ (recent_closes_nonempty closes Hne)).
  rewrite (py_getitem_hd _ (recent_closes_nonempty closes Hne)).
  cbn [rbind]. rewrite Hhighs, Hlows. cbn [rbind].
  destruct (Nat.ltb_spec 1 (length closes)); [|lia].
  rewrite Hv. reflexivity.
Qed.

(** A first close of zero makes the overall-change division raise. *)
Lemma kline_locals_zero_start (sqrt : Q -> Q) (closes : list Q) :
  closes <> [] -> hd 0 closes == 0 ->
  kline_locals sqrt closes = Raise ZeroDivisionError.
Proof.
  intros Hne Hz.
  destruct (py_max_greatest closes Hne) as (hi & Hhi & _).
  destruct (py_min_least closes Hne) as (lo & Hlo & _).
  unfold kline_locals.
  rewrite (py_getitem_hd closes Hne), (py_getitem_last closes Hne), Hhi, Hlo.
  cbn [rbind]. now rewrite (py_div_zero _ _ Hz).
Qed.

(** The levels [get_kline_analysis] reports are the extrema of the batch. *)
Lemma kline_levels_global (sqrt : Q -> Q) (closes : list Q) (k : kline_levels) :
  (2 <= length closes)%nat ->
  kline_locals sqrt closes = Ok k ->
  same_level (kline_resistance k) (py_max closes) /\
  same_level (kline_support k) (py_min closes).
Proof.
  intros Hlen Hk.
  assert (Hne : closes <> []) by (destruct closes; [cbn in Hlen; lia|discriminate]).
  destruct (Qeq_dec (hd 0 closes) 0) as [Hz|Hnz].
  { rewrite (kline_locals_zero_start sqrt closes Hne Hz) in Hk. discriminate. }
  destruct (kline_locals_total sqrt closes Hlen Hnz)
    as (highs & lows & v & _ & _ & Hhne & Hlne & Hhmax & Hlmin & Hrun).
  rewrite Hrun in Hk.
  apply (f_equal (fun r => match r with Ok x => x | Raise _ => k end)) in Hk.
  cbv beta iota in Hk. subst k. cbn [kline_resistance kline_support].
  destruct (sorted_reverse_first highs Hhne) as (r & Hr & Hrmax).
  destruct (sorted_first lows Hlne) as (s & Hs & Hsmin).
  destruct (py_max_greatest closes Hne) as (hi & Hhi & Hhimax).
  destruct (py_min_least closes Hne) as (lo & Hlo & Hlomin).
  rewrite Hr, Hs, Hhi, Hlo. cbn [same_level]. split.
  - apply (greatest_of_unique r hi closes closes);
      [now apply Hhmax|exact Hhimax|apply incl_refl|apply incl_refl].
  - apply (least_of_unique s lo closes closes);
      [now apply Hlmin|exact Hlomin|apply incl_refl|apply incl_refl].
Qed.

Lemma parse_closes_total (closes : list Q) :
  parse_closes (map Some closes) = Ok closes.
Proof.
  induction closes as [|c closes IH]; [reflexivity|].
  cbn. now rewrite IH.
Qed.

(** On such a batch [get_kline_analysis] returns the report rendered from
    these locals. *)
Lemma get_kline_analysis_report (sqrt : Q -> Q) (format_6f : Q -> string)
  (closes : list Q) :
  (2 <= length closes)%nat ->
  ~ hd 0 closes == 0 ->
  exists k,
    kline_locals sqrt closes = Ok k /\
    get_kline_analysis sqrt format_6f (KlineData (map Some closes))
    = render_kline format_6f k.
Proof.
  intros Hlen Hnz.
  destruct (kline_locals_total sqrt closes Hlen Hnz)
    as (highs & lows & v & _ & _ & _ & _ & _ & _ & Hrun).
  eexists. split; [exact Hrun|].
  unfold get_kline_analysis.
  destruct closes as [|c closes]; [cbn in Hlen; lia|].
  cbn [map]. change (Some c :: map Some closes) with (map Some (c :: closes)).
  rewrite parse_closes_total.
  destruct (Nat.ltb_spec (length (c :: closes)) 2); [lia|].
  now rewrite Hrun.
Qed.

(** C2. For a batch of at least two closes (with a first close that is not
    zero, so that the analysis is produced), the resistance is the first of
    the per-index trailing-window maxima sorted in descending order and the
    support the first of the trailing-window minima sorted in ascending
    order; and these are always the global maximum and the global minimum
    of the batch. *)
Theorem kline_levels_are_global_extrema (sqrt : Q -> Q) (closes : list Q) :
  (2 <= length closes)%nat ->
  ~ hd 0 closes == 0 ->
  exists k highs lows,
    kline_locals sqrt closes = Ok k /\
    trailing_extrema py_max closes = Ok highs /\
    trailing_extrema py_min closes = Ok lows /\
    kline_resistance k = first_or_none (firstn 5 (py_sorted_reverse highs)) /\
    kline_support k = first_or_none (firstn 5 (py_sorted lows)) /\
    same_level (kline_resistance k) (global_max closes) /\
    same_level (kline_support k) (global_min closes).
Proof.
  intros Hlen Hnz.
  destruct (kline_locals_total sqrt closes Hlen Hnz)
    as (highs & lows & v & Hhighs & Hlows & _ & _ & _ & _ & Hrun).
  eexists. exists highs, lows.
  split; [exact Hrun|]. split; [exact Hhighs|]. split; [exact Hlows|].
  split; [reflexivity|]. split; [reflexivity|].
  exact (kline_levels_global sqrt closes _ Hlen Hrun).
Qed.

Lemma kline_levels_are_global_extrema_witness :
  let closes := [3; 1; 4; 1; 5; 9; 2; 6] in
  exists k highs lows,
    kline_locals (fun x => x) closes = Ok k /\
    trailing_extrema py_max closes = Ok highs /\
    trailing_extrema py_min closes = Ok lows /\
    kline_resistance k = first_or_none (firstn 5 (py_sorted_reverse highs)) /\
    kline_support k = first_or_none (firstn 5 (py_sorted lows)) /\
    same_level (kline_resistance k) (global_max closes) /\
    same_level (kline_support k) (global_min closes).
Proof.
  intro closes.
  apply (kline_levels_are_global_extrema (fun x => x) closes).
  - vm_compute. lia.
  - vm_compute. discriminate.
Defined.

(** No batch makes a reported level differ from the global extremum: the
    claim that some batch does is false. *)
Lemma kline_levels_never_differ_from_global :
  ~ exists (sqrt : Q -> Q) (closes : list Q) (k : kline_levels),
      (2 <= length closes)%nat /\
      kline_locals sqrt closes = Ok k /\
      (~ same_level (kline_resistance k) (global_max closes) \/
       ~ same_level (kline_support k) (global_min closes)).
Proof.
  intros (sqrt & closes & k & Hlen & Hk & Hdiff).
  destruct (kline_levels_global sqrt closes k Hlen Hk) as [Hr Hs].
  destruct Hdiff as [H|H]; apply H; assumption.
Qed.

(** C3. For a batch of at least two closes (with a first close that is not
    zero, so that the analysis is produced), the K-line trend over the last
    ten closes, or all of them when there are fewer, is bullish when the
    newest close is strictly greater than the oldest close of that slice,
    and bearish otherwise; when the two are equal it is bearish. *)
Theorem kline_trend_strict (sqrt : Q -> Q) (closes : list Q) :
  (2 <= length closes)%nat ->
  ~ hd 0 closes == 0 ->
  let recent := recent_closes_of closes in
  let oldest := hd 0 recent in
  let newest := List.last recent 0 in
  exists k,
    kline_locals sqrt closes = Ok k /\
    (oldest < newest -> kline_trend k = "看涨"%string) /\
    (newest <= oldest -> kline_trend k = "看跌"%string) /\
    (newest == oldest -> kline_trend k = "看跌"%string).
Proof.
  intros Hlen Hnz recent oldest newest.
  destruct (kline_locals_total sqrt closes Hlen Hnz)
    as (highs & lows & v & _ & _ & _ & _ & _ & _ & Hrun).
  eexists. split; [exact Hrun|]. cbn [kline_trend].
  fold recent. fold oldest. fold newest.
  split; [|split].
  - intro H. apply Qlt_bool_iff in H. now rewrite H.
  - intro H. apply Qlt_bool_false_iff in H. now rewrite H.
  - intro H. assert (Hle : newest <= oldest) by (rewrite H; apply Qle_refl).
    apply Qlt_bool_false_iff in Hle. now rewrite Hle.
Qed.

Lemma kline_trend_strict_witness :
  exists k,
    kline_locals (fun x => x) [2; 3; 2] = Ok k /\
    (2 < 2 -> kline_trend k = "看涨"%string) /\
    (2 <= 2 -> kline_trend k = "看跌"%string) /\
    (2 == 2 -> kline_trend k = "看跌"%string).
Proof.
  apply (kline_trend_strict (fun x => x) [2; 3; 2]).
  - vm_compute. lia.
  - vm_compute. discriminate.
Defined.

(** On the batch [[1; 1]] the newest close equals the oldest: the
    specification's rule gives bullish, the code bearish. *)
Lemma kline_trend_tie_is_bearish :
  (2 <= length [1; 1])%nat /\
  spec_kline_trend [1; 1] = "看涨"%string /\
  exists k,
    kline_locals (fun x => x) [1; 1] = Ok k /\
    kline_trend k = "看跌"%string /\
    kline_trend k <> spec_kline_trend [1; 1].
Proof.
  split; [cbn; lia|]. split; [reflexivity|].
  eexists. split; [reflexivity|]. split; [reflexivity|].
  vm_compute. discriminate.
Qed.

(** ** The window after a run *)

Lemma skipn_snoc {A : Type} (k : nat) (l : list A) (x : A) :
  (k <= length l)%nat -> skipn k (l ++ [x]) = skipn k l ++ [x].
Proof.
  intro H. rewrite skipn_app.
  replace (k - length l)%nat with 0%nat by lia. reflexivity.
Qed.

Lemma tl_skipn {A : Type} (k : nat) (l : list A) : tl (skipn k l) = skipn (S k) l.
Proof.
  revert l. induction k as [|k IH]; intro l.
  - now destruct l.
  - destruct l as [|x l]; [reflexivity|]. cbn [skipn]. apply IH.
Qed.

Lemma keep_last_length {A : Type} (n : nat) (l : list A) :
  length (keep_last n l) = Nat.min n (length l).
Proof. unfold keep_last. rewrite length_skipn. lia. Qed.

(** Appending to a deque that holds the last [maxlen] of [l] gives one that
    holds the last [maxlen] of [l ++ [x]]. *)
Lemma deque_append_keep_last {A : Type} (x : A) (d : deque A) (l : list A) :
  items d = keep_last (maxlen d) l ->
  items (deque_append x d) = keep_last (maxlen d) (l ++ [x]).
Proof.
  intro H. pose proof (keep_last_length (maxlen d) l) as L. rewrite <- H in L.
  unfold keep_last in *. rewrite length_app. cbn [length].
  destruct (Nat.lt_ge_cases (length l) (maxlen d)) as [Hlt|Hge].
  - rewrite deque_append_below by lia. rewrite H.
    replace (length l - maxlen d)%nat with 0%nat by lia.
    replace (length l + 1 - maxlen d)%nat with 0%nat by lia. reflexivity.
  - rewrite deque_append_full by lia. rewrite H.
    rewrite <- skipn_snoc by lia. rewrite tl_skipn. f_equal. lia.
Qed.

Lemma add_prices_snoc (obs : list observation) (o : observation)
  (self : TechnicalAnalyzer) :
  add_prices (obs ++ [o]) self
  = snd (add_price (fst (fst o)) (snd (fst o)) (snd o) (add_prices obs self)).
Proof. unfold add_prices. now rewrite fold_left_app. Qed.

Lemma add_prices_maxlen (obs : list observation) (self : TechnicalAnalyzer) :
  maxlen (prices (add_prices obs self)) = maxlen (prices self) /\
  maxlen (timestamps (add_prices obs self)) = maxlen (timestamps self).
Proof.
  revert self. induction obs as [|o obs IH]; intro self; [now split|].
  cbn [add_prices fold_left]. destruct (IH (snd (add_price (fst (fst o))
    (snd (fst o)) (snd o) self))) as [Hp Ht]. split; assumption.
Qed.

Lemma combine_skipn {A B : Type} (k : nat) (l1 : list A) (l2 : list B) :
  combine (skipn k l1) (skipn k l2) = skipn k (combine l1 l2).
Proof.
  revert l1 l2. induction k as [|k IH]; intros l1 l2; [reflexivity|].
  destruct l1 as [|x l1]; [reflexivity|].
  destruct l2 as [|y l2]; [cbn; now destruct (skipn k l1)|].
  cbn [skipn combine]. apply IH.
Qed.

(** The two deques of an analyzer filled from a new one. *)
Lemma add_prices_items (n : nat) (obs : list observation) :
  items (prices (add_prices obs (new_analyzer n)))
  = keep_last n (map (fun o => fst (stored o)) obs) /\
  items (timestamps (add_prices obs (new_analyzer n)))
  = keep_last n (map (fun o => snd (stored o)) obs).
Proof.
  induction obs as [|o obs IH] using rev_ind; [now split|].
  destruct IH as [IHp IHt].
  destruct (add_prices_maxlen obs (new_analyzer n)) as [Mp Mt].
  cbn [new_analyzer prices timestamps deque_new maxlen] in Mp, Mt.
  rewrite add_prices_snoc, !map_app. cbn [map add_price snd prices timestamps].
  split.
  - rewrite <- Mp at 2. apply deque_append_keep_last. now rewrite Mp.
  - rewrite <- Mt at 2. apply deque_append_keep_last. now rewrite Mt.
Qed.

Lemma window_after_add_prices (n : nat) (obs : list observation) :
  window (add_prices obs (new_analyzer n)) = keep_last n (map stored obs).
Proof.
  unfold window. destruct (add_prices_items n obs) as [-> ->].
  unfold keep_last. rewrite !length_map, combine_skipn. f_equal.
  induction obs as [|o obs IH]; [reflexivity|]. cbn [map combine].
  rewrite IH. now destruct (stored o).
Qed.

(** X1. After any sequence of [add_price] calls on a new analyzer of
    capacity [n], the window is exactly the last [n] observations of the
    sequence (all of them when there are fewer), in the order of the calls,
    each with the timestamp given or else the clock at the call. *)
Theorem window_is_last_observations (n : nat) (obs : list observation) :
  window (add_prices obs (new_analyzer n)) = keep_last n (map stored obs) /\
  length (window (add_prices obs (new_analyzer n))) = Nat.min n (length obs).
Proof.
  rewrite window_after_add_prices, keep_last_length, length_map. now split.
Qed.

Lemma main_cycle_analyzer (sqrt : Q -> Q) (now : instant)
  (response : ticker_response) (posted : bool) (self : TechnicalAnalyzer) :
  snd (main_cycle sqrt now response posted self)
  = match get_hsk_price response with
    | Some d => snd (add_price now (price d) None self)
    | None => self
    end.
Proof.
  unfold main_cycle. destruct (get_hsk_price response) as [d|]; [|reflexivity].
  unfold bind. cbn [add_price]. apply send_to_lark_webhook_pure.
Qed.

Lemma main_loop_add_prices (sqrt : Q -> Q)
  (cycles : list (instant * ticker_response * bool)) (self : TechnicalAnalyzer) :
  main_loop sqrt cycles self = add_prices (fetched cycles) self.
Proof.
  revert self. induction cycles as [|[[now response] posted] cycles IH];
    intro self; [reflexivity|].
  cbn [main_loop fetched flat_map fst snd]. rewrite IH, main_cycle_analyzer.
  fold (fetched cycles). now destruct (get_hsk_price response).
Qed.

(** X2. After any run of the polling loop from a new analyzer of capacity
    [n], the window holds exactly the last [n] successfully fetched prices,
    in the order fetched, each stamped with the clock of its cycle: failed
    fetches, failed deliveries and the indicator calls leave no trace. *)
Theorem main_loop_window (sqrt : Q -> Q) (n : nat)
  (cycles : list (instant * ticker_response * bool)) :
  window (main_loop sqrt cycles (new_analyzer n))
  = keep_last n (map stored (fetched cycles)).
Proof.
  rewrite main_loop_add_prices. apply window_after_add_prices.
Qed.

(** ** Moving averages *)

Lemma Qnat_succ (n : nat) : Qnat (S n) == Qnat n + 1.
Proof.
  unfold Qnat. rewrite Nat2Z.inj_succ. unfold Z.succ.
  rewrite inject_Z_plus. reflexivity.
Qed.

Lemma fold_plus_within (lo hi : Q) (l : list Q) :
  forall acc,
    Forall (within lo hi) l ->
    acc + lo * Qnat (length l) <= fold_left Qplus l acc /\
    fold_left Qplus l acc <= acc + hi * Qnat (length l).
Proof.
  induction l as [|x l IH]; intros acc H.
  - cbn [fold_left length]. change (Qnat 0) with 0. split; lra.
  - inversion H as [|? ? [Hlo Hhi] Hl]; subst.
    cbn [fold_left length]. destruct (IH (acc + x) Hl) as [IH1 IH2].
    rewrite Qnat_succ. split; lra.
Qed.

Lemma py_sum_within (lo hi : Q) (l : list Q) :
  Forall (within lo hi) l ->
  lo * Qnat (length l) <= py_sum l <= hi * Qnat (length l).
Proof.
  intro H. destruct (fold_plus_within lo hi l 0 H) as [H1 H2].
  unfold py_sum. split; lra.
Qed.

Lemma Qnat_nonzero (n : nat) : (1 <= n)%nat -> ~ Qnat n == 0.
Proof.
  intros H E. pose proof (Qnat_pos n H) as Hp. rewrite E in Hp.
  now apply Qlt_irrefl in Hp.
Qed.


Lemma calculate_sma_value (period : nat) (self : TechnicalAnalyzer) :
  (1 <= period <= length (items (prices self)))%nat ->
  calculate_sma (Some period) self
  = (Ok (Some (py_sum (slice_last period (items (prices self))) / Qnat period)),
     self).
Proof.
  intro H. unfold calculate_sma, bind, self_prices, ret, lift.
  destruct (Nat.ltb_spec (length (items (prices self))) period); [lia|].
  now rewrite py_div_ok by (apply Qnat_nonzero; lia).
Qed.






Lemma calculate_ema_value (period : nat) (self : TechnicalAnalyzer) :
  (1 <= period <= length (items (prices self)))%nat ->
  exists first rest,
    slice_last period (items (prices self)) = first :: rest /\
    calculate_ema period self
    = (Ok (Some (fold_left
                   (fun ema price =>
                      price * (2 / (Qnat period + 1))
                      + ema * (1 - 2 / (Qnat period + 1)))
                   rest first)), self).
Proof.
  intro H. unfold calculate_ema, bind, self_prices, ret, lift.
  destruct (Nat.ltb_spec (length (items (prices self))) period); [lia|].
  pose proof (slice_last_length period (items (prices self)) ltac:(lia)) as L.
  destruct (slice_last period (items (prices self))) as [|first rest] eqn:E;
    [cbn in L; lia|].
  exists first, rest. split; [reflexivity|].
  rewrite py_div_ok.
  - pose proof (py_getitem_nat (first :: rest) 0 first eq_refl) as G.
    cbn [Z.of_nat] in G. now rewrite G.
  - pose proof (Qnat_pos period ltac:(lia)). lra.
Qed.



(** ** RSI at its extremes *)

Lemma rsi_loop_closed (ps : list Q) (k : nat) :
  forall (s : nat) (gains losses : list Q),
    (1 <= s)%nat -> (s + k <= length ps)%nat ->
    rsi_loop ps (seq s k) gains losses
    = Ok (gains ++ map (gain_at ps) (seq s k),
          losses ++ map (loss_at ps) (seq s k)).
Proof.
  induction k as [|k IH]; intros s gains losses Hs Hlen.
  - cbn. now rewrite !app_nil_r.
  - cbn [seq rsi_loop map].
    destruct (Nat.eqb_spec s 0) as [E|_]; [lia|].
    destruct (nth_error ps s) as [p_i|] eqn:Ei;
      [|apply nth_error_None in Ei; lia].
    destruct (nth_error ps (s - 1)) as [p_prev|] eqn:Ep;
      [|apply nth_error_None in Ep; lia].
    rewrite (py_getitem_nat ps s p_i Ei). cbn [rbind].
    replace (Z.of_nat s - 1)%Z with (Z.of_nat (s - 1)) by lia.
    rewrite (py_getitem_nat ps (s - 1) p_prev Ep). cbn [rbind].
    unfold gain_at at 1, loss_at at 1.
    rewrite (nth_error_nth ps s 0 Ei), (nth_error_nth ps (s - 1) 0 Ep).
    destruct (Qlt_bool p_prev p_i);
      rewrite IH by lia; now rewrite <- !app_assoc.
Qed.

Lemma slice_last_short {A : Type} (n : nat) (l : list A) :
  (length l <= n)%nat -> slice_last n l = l.
Proof.
  intro H. unfold slice_last. destruct n; [reflexivity|].
  now replace (length l - S n)%nat with 0%nat by lia.
Qed.

(** [calculate_rsi] on a window with enough history, in closed form. *)
Lemma calculate_rsi_value (period : nat) (self : TechnicalAnalyzer) :
  (1 <= period)%nat ->
  (period + 1 <= length (items (prices self)))%nat ->
  let ps := items (prices self) in
  let indices := rsi_indices period (length ps) in
  let avg_gain := py_sum (map (gain_at ps) indices) / Qnat period in
  let avg_loss := py_sum (map (loss_at ps) indices) / Qnat period in
  calculate_rsi period self
  = (if Qeq_bool avg_loss 0 then Ok (Some 100)
     else rbind (py_div avg_gain avg_loss) (fun rs =>
          rbind (py_div 100 (1 + rs)) (fun q => Ok (Some (100 - q)))),
     self).
Proof.
  intros Hperiod Hlen ps indices avg_gain avg_loss.
  change (period + 1 <= length ps)%nat in Hlen.
  unfold calculate_rsi, bind, self_prices, ret, lift. fold ps.
  destruct (Nat.ltb_spec (length ps) (period + 1)); [lia|].
  unfold py_range.
  replace (length ps - (length ps - period))%nat with period by lia.
  rewrite rsi_loop_closed by lia. fold (rsi_indices period (length ps)).
  fold indices. cbn [fst snd app].
  assert (Li : length indices = period) by (unfold indices, rsi_indices; apply length_seq).
  rewrite !length_map, Li, Nat.ltb_irrefl. cbn [orb].
  rewrite !slice_last_short by (rewrite length_map; lia).
  rewrite !py_div_ok by (apply Qnat_nonzero; lia).
  fold avg_gain avg_loss.
  destruct (Qeq_bool avg_loss 0); [reflexivity|].
  destruct (py_div avg_gain avg_loss); cbn [rbind]; [|reflexivity].
  destruct (py_div 100 (1 + a)); reflexivity.
Qed.

Lemma py_sum_zero (l : list Q) : Forall (fun x => x == 0) l -> py_sum l == 0.
Proof.
  intro H.
  assert (Hw : Forall (within 0 0) l).
  { eapply Forall_impl; [|exact H]. intros x Hx. unfold within. rewrite Hx. split; lra. }
  destruct (py_sum_within 0 0 l Hw) as [H1 H2]. lra.
Qed.

Lemma fold_plus_ge (l : list Q) :
  forall acc, Forall nonneg l -> acc <= fold_left Qplus l acc.
Proof.
  induction l as [|x l IH]; intros acc H; [apply Qle_refl|].
  inversion H as [|? ? Hx Hl]; subst. unfold nonneg in Hx. cbn [fold_left].
  specialize (IH (acc + x) Hl). lra.
Qed.

Lemma fold_plus_positive (l : list Q) :
  forall acc,
    Forall nonneg l -> Exists (fun x => 0 < x) l ->
    acc < fold_left Qplus l acc.
Proof.
  induction l as [|x l IH]; intros acc Hn He; [inversion He|].
  inversion Hn as [|? ? Hx Hl]; subst. unfold nonneg in Hx. cbn [fold_left].
  inversion He as [? ? Hpos|? ? Hrest]; subst.
  - pose proof (fold_plus_ge l (acc + x) Hl). lra.
  - specialize (IH (acc + x) Hl Hrest). lra.
Qed.

Lemma py_sum_positive (l : list Q) :
  Forall nonneg l -> Exists (fun x => 0 < x) l -> 0 < py_sum l.
Proof. intros Hn He. unfold py_sum. now apply fold_plus_positive. Qed.

Lemma rsi_indices_range (period n i : nat) :
  (period <= n)%nat ->
  In i (rsi_indices period n) <-> (n - period <= i < n)%nat.
Proof.
  intro H. unfold rsi_indices. rewrite in_seq. lia.
Qed.

(** X5. When the window holds at least [period + 1] prices and none of the
    last [period] prices is below the price before it (a flat window
    included), [calculate_rsi] returns exactly 100. *)
Theorem rsi_no_fall_is_100 (period : nat) (self : TechnicalAnalyzer) :
  (1 <= period)%nat ->
  (period + 1 <= length (items (prices self)))%nat ->
  (forall i, (length (items (prices self)) - period <= i
              < length (items (prices self)))%nat ->
             nth (i - 1) (items (prices self)) 0 <= nth i (items (prices self)) 0) ->
  calculate_rsi period self = (Ok (Some 100), self).
Proof.
  intros Hperiod Hlen Hmono.
  rewrite (calculate_rsi_value period self Hperiod Hlen). cbv zeta.
  set (ps := items (prices self)) in *.
  assert (Hz : py_sum (map (loss_at ps) (rsi_indices period (length ps))) == 0).
  { apply py_sum_zero, Forall_forall. intros x Hx. apply in_map_iff in Hx.
    destruct Hx as (i & Ex & Hi). subst x. apply rsi_indices_range in Hi; [|lia].
    unfold loss_at. destruct (Qlt_bool (nth (i - 1) ps 0) (nth i ps 0)) eqn:E;
      [reflexivity|].
    apply Qlt_bool_false_iff in E. specialize (Hmono i Hi). lra. }
  assert (Hq : Qeq_bool
                 (py_sum (map (loss_at ps) (rsi_indices period (length ps)))
                  / Qnat period) 0 = true).
  { apply Qeq_bool_iff. rewrite Hz. unfold Qdiv. apply Qmult_0_l. }
  now rewrite Hq.
Qed.

Lemma rsi_no_fall_is_100_witness :
  calculate_rsi 3 (window_of [9; 4; 4; 6; 6]%Z)
  = (Ok (Some 100), window_of [9; 4; 4; 6; 6]%Z).
Proof.
  apply (rsi_no_fall_is_100 3 (window_of [9; 4; 4; 6; 6]%Z)).
  - lia.
  - vm_compute. lia.
  - intros i Hi. change (length (items (prices (window_of [9; 4; 4; 6; 6]%Z))))
      with 5%nat in Hi.
    assert (Hc : i = 2%nat \/ i = 3%nat \/ i = 4%nat) by lia.
    destruct Hc as [-> | [-> | ->]]; vm_compute; discriminate.
Defined.

(** X6. When the window holds at least [period + 1] prices, none of the
    last [period] prices is above the price before it and at least one is
    below, [calculate_rsi] returns a number equal to 0. *)
Theorem rsi_only_falls_is_0 (period : nat) (self : TechnicalAnalyzer) (drop : nat) :
  (1 <= period)%nat ->
  (period + 1 <= length (items (prices self)))%nat ->
  (forall i, (length (items (prices self)) - period <= i
              < length (items (prices self)))%nat ->
             nth i (items (prices self)) 0 <= nth (i - 1) (items (prices self)) 0) ->
  (length (items (prices self)) - period <= drop
   < length (items (prices self)))%nat ->
  nth drop (items (prices self)) 0 < nth (drop - 1) (items (prices self)) 0 ->
  exists rsi, calculate_rsi period self = (Ok (Some rsi), self) /\ rsi == 0.
Proof.
  intros Hperiod Hlen Hmono Hdrop Hlt.
  rewrite (calculate_rsi_value period self Hperiod Hlen). cbv zeta.
  set (ps := items (prices self)) in *.
  set (indices := rsi_indices period (length ps)).
  pose proof (Qnat_pos period Hperiod) as Hpp.
  assert (Hg : py_sum (map (gain_at ps) indices) == 0).
  { apply py_sum_zero, Forall_forall. intros x Hx. apply in_map_iff in Hx.
    destruct Hx as (i & Ex & Hi). subst x. apply rsi_indices_range in Hi; [|lia].
    unfold gain_at. destruct (Qlt_bool (nth (i - 1) ps 0) (nth i ps 0)) eqn:E;
      [|reflexivity].
    apply Qlt_bool_iff in E. specialize (Hmono i Hi). lra. }
  assert (Hl : 0 < py_sum (map (loss_at ps) indices)).
  { apply py_sum_positive.
    - apply Forall_forall. intros x Hx. apply in_map_iff in Hx.
      destruct Hx as (i & Ex & Hi). subst x. apply rsi_indices_range in Hi; [|lia].
      unfold loss_at, nonneg.
      destruct (Qlt_bool (nth (i - 1) ps 0) (nth i ps 0)); [lra|].
      specialize (Hmono i Hi). lra.
    - apply Exists_exists. exists (loss_at ps drop). split.
      + apply in_map. apply rsi_indices_range; [lia|exact Hdrop].
      + unfold loss_at.
        destruct (Qlt_bool (nth (drop - 1) ps 0) (nth drop ps 0)) eqn:E; [|lra].
        apply Qlt_bool_iff in E. lra. }
  set (avg_gain := py_sum (map (gain_at ps) indices) / Qnat period).
  set (avg_loss := py_sum (map (loss_at ps) indices) / Qnat period).
  assert (Hag : avg_gain == 0).
  { unfold avg_gain. rewrite Hg. unfold Qdiv. apply Qmult_0_l. }
  assert (Hal : 0 < avg_loss).
  { unfold avg_loss. apply Qlt_shift_div_l; [exact Hpp|lra]. }
  assert (Hnz : ~ avg_loss == 0) by lra.
  destruct (Qeq_bool avg_loss 0) eqn:E; [apply Qeq_bool_iff in E; contradiction|].
  rewrite (py_div_ok _ _ Hnz). cbn [rbind].
  assert (Hrs : avg_gain / avg_loss == 0).
  { rewrite Hag. unfold Qdiv. apply Qmult_0_l. }
  rewrite py_div_ok by (rewrite Hrs; lra). cbn [rbind].
  eexists. split; [reflexivity|]. rewrite Hrs. reflexivity.
Qed.

Lemma rsi_only_falls_is_0_witness :
  exists rsi, calculate_rsi 3 (window_of [1; 8; 8; 6; 6]%Z)
              = (Ok (Some rsi), window_of [1; 8; 8; 6; 6]%Z) /\ rsi == 0.
Proof.
  apply (rsi_only_falls_is_0 3 (window_of [1; 8; 8; 6; 6]%Z) 3).
  - lia.
  - vm_compute. lia.
  - intros i Hi. change (length (items (prices (window_of [1; 8; 8; 6; 6]%Z))))
      with 5%nat in Hi.
    assert (Hc : i = 2%nat \/ i = 3%nat \/ i = 4%nat) by lia.
    destruct Hc as [-> | [-> | ->]]; vm_compute; discriminate.
  - vm_compute. lia.
  - reflexivity.
Defined.

(** ** The trend label, case by case *)

Lemma set_of_length_ge (l : list Q) :
  forall seen, (length seen <= length (set_of l seen))%nat.
Proof.
  induction l as [|x l IH]; intro seen; [cbn; lia|].
  cbn [set_of]. destruct (mem_num x seen); [apply IH|].
  specialize (IH (seen ++ [x])). rewrite length_app in IH. cbn [length] in IH. lia.
Qed.

(** [len(set(l)) == 1] says that all elements of [l] are equal. *)
Lemma len_set_one_iff (x : Q) (r : list Q) :
  len_set (x :: r) = 1%nat <-> Forall (fun y => y == x) r.
Proof.
  unfold len_set. cbn [set_of mem_num app]. split.
  - induction r as [|y r IH]; intro H; [constructor|].
    cbn [set_of mem_num] in H. rewrite orb_false_r in H.
    destruct (Qeq_bool y x) eqn:E.
    + constructor; [now apply Qeq_bool_iff|now apply IH].
    + pose proof (set_of_length_ge r ([x] ++ [y])) as L.
      cbn [app length] in L, H. lia.
  - induction 1 as [|y r Hy _ IH]; [reflexivity|].
    cbn [set_of mem_num]. rewrite orb_false_r.
    now rewrite (Qeq_eq_bool _ _ Hy).
Qed.

Lemma get_trend_insufficient (self : TechnicalAnalyzer) :
  (length (items (prices self)) < 5)%nat ->
  get_trend self = (Ok "数据不足"%string, self).
Proof.
  intro H. unfold get_trend, bind, self_prices, ret.
  destruct (Nat.ltb_spec (length (items (prices self))) 5); [reflexivity|lia].
Qed.

(** Settle [label = constant <-> condition] once the label is known. *)
Ltac settle_label :=
  split;
  [ let H := fresh in
    intro H;
    first [ discriminate H | assumption
          | repeat split; first [assumption | lra] ]
  | let H := fresh in
    intro H;
    first [ reflexivity | exfalso; tauto
          | exfalso; decompose [and] H; lra ] ].

(** X7. [get_trend] never raises.  With fewer than five prices it returns
    [数据不足].  Otherwise, on the last five prices [x0 .. x4]: [中性] exactly
    when all five are equal; [看涨] exactly when [x4] is above both [x0] and
    [x3]; [看涨反转] exactly when [x4] is above [x0] but not above [x3];
    [看跌] exactly when [x4] is not above [x0] and is below [x3]; and
    [看跌反转] in the remaining case, [x4] not above [x0], not below [x3],
    and the five not all equal. *)
Theorem trend_decision (self : TechnicalAnalyzer) (x0 x1 x2 x3 x4 : Q) :
  ((length (items (prices self)) < 5)%nat ->
   get_trend self = (Ok "数据不足"%string, self)) /\
  (slice_last 5 (items (prices self)) = [x0; x1; x2; x3; x4] ->
   let flat := x1 == x0 /\ x2 == x0 /\ x3 == x0 /\ x4 == x0 in
   exists label,
     get_trend self = (Ok label, self) /\
     (label = "中性"%string <-> flat) /\
     (label = "看涨"%string <-> x0 < x4 /\ x3 < x4) /\
     (label = "看涨反转"%string <-> x0 < x4 /\ x4 <= x3) /\
     (label = "看跌"%string <-> x4 <= x0 /\ x4 < x3) /\
     (label = "看跌反转"%string <-> ~ flat /\ x4 <= x0 /\ x3 <= x4)).
Proof.
  split; [apply get_trend_insufficient|].
  intros H flat. rewrite (get_trend_five self x0 x1 x2 x3 x4 H).
  eexists. split; [reflexivity|]. unfold trend_of_five.
  assert (Hflat : len_set [x0; x1; x2; x3; x4] = 1%nat <-> flat).
  { rewrite len_set_one_iff. unfold flat. split.
    - intro F. inversion F as [|? ? H1 F1]; subst.
      inversion F1 as [|? ? H2 F2]; subst. inversion F2 as [|? ? H3 F3]; subst.
      inversion F3 as [|? ? H4 F4]; subst. auto.
    - intros (H1 & H2 & H3 & H4). repeat constructor; assumption. }
  destruct (Nat.eqb_spec (len_set [x0; x1; x2; x3; x4]) 1) as [E|E].
  - apply Hflat in E. pose proof E as (H1 & H2 & H3 & H4).
    (split; [|split; [|split; [|split]]]); settle_label.
  - assert (Hnf : ~ flat) by (intro F; apply E, Hflat, F).
    destruct (Qlt_bool x0 x4) eqn:E04;
      [apply Qlt_bool_iff in E04|apply Qlt_bool_false_iff in E04].
    + destruct (Qlt_bool x3 x4) eqn:E34;
        [apply Qlt_bool_iff in E34|apply Qlt_bool_false_iff in E34];
        (split; [|split; [|split; [|split]]]); settle_label.
    + destruct (Qlt_bool x4 x3) eqn:E43;
        [apply Qlt_bool_iff in E43|apply Qlt_bool_false_iff in E43];
        (split; [|split; [|split; [|split]]]); settle_label.
Qed.

Lemma trend_decision_witness :
  exists label,
    get_trend (window_of [4; 5; 6; 3; 4]%Z)
    = (Ok label, window_of [4; 5; 6; 3; 4]%Z) /\
    (label = "看跌反转"%string <->
     ~ (5 == 4 /\ 6 == 4 /\ 3 == 4 /\ 4 == 4) /\ 4 <= 4 /\ 3 <= 4).
Proof.
  destruct (proj2 (trend_decision (window_of [4; 5; 6; 3; 4]%Z) 4 5 6 3 4) eq_refl)
    as (label & Hrun & _ & _ & _ & _ & Hrev).
  exists label. split; assumption.
Defined.

(** ** Levels, volatility and momentum *)

Lemma slice_last_nonempty {A : Type} (n : nat) (l : list A) :
  l <> [] -> slice_last n l <> [].
Proof.
  intros H E. destruct n; [now apply H|].
  pose proof (slice_last_length (S n) l ltac:(lia)) as L. rewrite E in L.
  destruct l; [congruence|]. cbn [length] in L. lia.
Qed.

Lemma analyze_support_resistance_value (window_size : nat) (self : TechnicalAnalyzer) :
  (5 <= length (items (prices self)))%nat ->
  let ps := items (prices self) in
  let recent := if (window_size <=? length ps)%nat
                then slice_last window_size ps else ps in
  exists lo hi,
    analyze_support_resistance window_size self
    = (Ok (mkSupRes (Some lo) (Some hi)), self) /\
    least_of lo recent /\ greatest_of hi recent.
Proof.
  intros Hlen ps recent.
  assert (Hps : ps <> []) by (intro E; unfold ps in E; rewrite E in Hlen; cbn in Hlen; lia).
  assert (Hne : recent <> []).
  { unfold recent. destruct (window_size <=? length ps)%nat;
      [now apply slice_last_nonempty|exact Hps]. }
  destruct (py_min_least recent Hne) as (lo & Hlo & Hmin).
  destruct (py_max_greatest recent Hne) as (hi & Hhi & Hmax).
  exists lo, hi. split; [|split; assumption].
  unfold analyze_support_resistance, bind, self_prices, ret, lift. fold ps.
  destruct (Nat.ltb_spec (length ps) 5); [unfold ps in *; lia|].
  fold recent. now rewrite Hlo, Hhi.
Qed.

(** X8. [analyze_support_resistance] never raises.  With fewer than five
    prices both levels are [None]; otherwise the support and the
    resistance are prices of the window taken (the last [window_size]
    prices, or the whole window when it is shorter or [window_size] is 0),
    and every price of it lies between them. *)
Theorem support_resistance_bracket (window_size : nat) (self : TechnicalAnalyzer) :
  let ps := items (prices self) in
  let recent := if (window_size <=? length ps)%nat
                then slice_last window_size ps else ps in
  ((length ps < 5)%nat ->
   analyze_support_resistance window_size self = (Ok (mkSupRes None None), self)) /\
  ((5 <= length ps)%nat ->
   exists lo hi,
     analyze_support_resistance window_size self
     = (Ok (mkSupRes (Some lo) (Some hi)), self) /\
     In lo recent /\ In hi recent /\
     forall p, In p recent -> lo <= p <= hi).
Proof.
  intros ps recent. split; intro Hlen.
  - unfold analyze_support_resistance, bind, self_prices, ret. fold ps.
    destruct (Nat.ltb_spec (length ps) 5); [reflexivity|lia].
  - destruct (analyze_support_resistance_value window_size self Hlen)
      as (lo & hi & Hrun & [Hlo Hmin] & [Hhi Hmax]).
    exists lo, hi. repeat split; try assumption; [now apply Hmin|now apply Hmax].
Qed.

Lemma support_resistance_bracket_witness :
  exists lo hi,
    analyze_support_resistance 3 (window_of [1; 9; 5; 4; 6]%Z)
    = (Ok (mkSupRes (Some lo) (Some hi)), window_of [1; 9; 5; 4; 6]%Z) /\
    In lo [5; 4; 6] /\ In hi [5; 4; 6] /\
    forall p, In p [5; 4; 6] -> lo <= p <= hi.
Proof.
  apply (proj2 (support_resistance_bracket 3 (window_of [1; 9; 5; 4; 6]%Z))).
  vm_compute. lia.
Defined.

Lemma len_set_singleton_or_longer (l : list Q) :
  l <> [] -> len_set l <> 1%nat -> (2 <= length l)%nat.
Proof.
  intros Hne H. destruct l as [|x [|y r]]; [congruence| |cbn; lia].
  exfalso. apply H. reflexivity.
Qed.

Lemma get_volatility_value (sqrt : Q -> Q) (period : nat) (self : TechnicalAnalyzer) :
  (1 <= period <= length (items (prices self)))%nat ->
  let recent := slice_last period (items (prices self)) in
  exists v,
    get_volatility sqrt period self = (Ok (Some v), self) /\
    ((len_set recent = 1)%nat -> v = 0) /\
    ((len_set recent <> 1)%nat -> py_stdev sqrt recent = Ok v).
Proof.
  intros Hp recent.
  assert (Hne : recent <> []).
  { apply slice_last_nonempty. intro E. rewrite E in Hp. cbn in Hp. lia. }
  unfold get_volatility, bind, self_prices, ret, lift. fold recent.
  destruct (Nat.ltb_spec (length (items (prices self))) period); [lia|].
  destruct (Nat.eqb_spec (len_set recent) 1) as [E|E].
  - exists 0. repeat split; congruence.
  - destruct (py_stdev_total sqrt recent (len_set_singleton_or_longer recent Hne E))
      as (v & Hv).
    exists v. rewrite Hv. repeat split; congruence.
Qed.

(** X9. For a period of at least one [get_volatility] never raises: it
    returns [None] when the window holds fewer than [period] prices, 0 when
    the last [period] prices are all equal (a period of 1 included), and
    the sample standard deviation of those prices otherwise. *)
Theorem volatility_cases (sqrt : Q -> Q) (period : nat) (self : TechnicalAnalyzer) :
  (1 <= period)%nat ->
  let recent := slice_last period (items (prices self)) in
  ((length (items (prices self)) < period)%nat ->
   get_volatility sqrt period self = (Ok None, self)) /\
  ((period <= length (items (prices self)))%nat ->
   exists v,
     get_volatility sqrt period self = (Ok (Some v), self) /\
     ((forall p, In p recent -> p == hd 0 recent) -> v = 0) /\
     (~ (forall p, In p recent -> p == hd 0 recent) ->
      py_stdev sqrt recent = Ok v)).
Proof.
  intros Hperiod recent. split; intro Hlen.
  - unfold get_volatility, bind, self_prices, ret.
    destruct (Nat.ltb_spec (length (items (prices self))) period); [reflexivity|lia].
  - destruct (get_volatility_value sqrt period self (conj Hperiod Hlen))
      as (v & Hrun & Hflat & Hdev). fold recent in Hflat, Hdev.
    assert (Hne : recent <> []).
    { apply slice_last_nonempty. intro E. rewrite E in Hlen. cbn in Hlen. lia. }
    assert (Hiff : len_set recent = 1%nat <-> forall p, In p recent -> p == hd 0 recent).
    { destruct recent as [|x r]; [congruence|]. rewrite len_set_one_iff, Forall_forall.
      cbn [hd]. split.
      - intros H p [<-|Hp]; [reflexivity|now apply H].
      - intros H p Hp. apply H. now right. }
    exists v. split; [exact Hrun|]. split.
    + intro H. apply Hflat, Hiff, H.
    + intro H. apply Hdev. intro E. apply H, Hiff, E.
Qed.

Lemma volatility_cases_witness :
  get_volatility (fun x => x) 5 (window_of [1; 2]%Z) = (Ok None, window_of [1; 2]%Z) /\
  exists v,
    get_volatility (fun x => x) 3 (window_of [1; 7; 7; 7]%Z)
    = (Ok (Some v), window_of [1; 7; 7; 7]%Z) /\
    ((forall p, In p [7; 7; 7] -> p == 7) -> v = 0) /\
    (~ (forall p, In p [7; 7; 7] -> p == 7) ->
     py_stdev (fun x => x) [7; 7; 7] = Ok v).
Proof.
  split.
  - apply (proj1 (volatility_cases (fun x => x) 5 (window_of [1; 2]%Z) ltac:(lia))).
    vm_compute. lia.
  - apply (proj2 (volatility_cases (fun x => x) 3 (window_of [1; 7; 7; 7]%Z) ltac:(lia))).
    vm_compute. lia.
Defined.

Lemma get_momentum_value (period : nat) (self : TechnicalAnalyzer) :
  (1 <= period <= length (items (prices self)))%nat ->
  let ps := items (prices self) in
  let old_price := nth (length ps - period) ps 0 in
  let current_price := nth (length ps - 1) ps 0 in
  get_momentum period self
  = (rbind (py_div (current_price - old_price) old_price)
       (fun q => Ok (Some (q * 100))), self).
Proof.
  intros Hp ps old_price current_price.
  change (1 <= period <= length ps)%nat in Hp.
  unfold get_momentum, bind, self_prices, ret, lift. fold ps.
  destruct (Nat.ltb_spec (length ps) period); [lia|].
  assert (Hold : nth_error ps (length ps - period) = Some old_price)
    by (apply nth_error_nth'; lia).
  assert (Hcur : nth_error ps (length ps - 1) = Some current_price)
    by (apply nth_error_nth'; lia).
  rewrite (py_getitem_from_end ps period old_price ltac:(lia) Hold).
  change (-1)%Z with (- Z.of_nat 1)%Z.
  rewrite (py_getitem_from_end ps 1 current_price ltac:(lia) Hcur).
  now destruct (py_div (current_price - old_price) old_price).
Qed.

(** X10. With a period between 1 and the length of the window,
    [get_momentum] compares the newest price with the price [period - 1]
    places before it: when that older price is zero it raises
    [ZeroDivisionError]; otherwise it returns their relative difference in
    percent, which for a positive older price is positive exactly when the
    newest price is higher, and which is zero for a period of 1. *)
Theorem momentum_cases (period : nat) (self : TechnicalAnalyzer) :
  (1 <= period <= length (items (prices self)))%nat ->
  let ps := items (prices self) in
  let old_price := nth (length ps - period) ps 0 in
  let current_price := nth (length ps - 1) ps 0 in
  (old_price == 0 -> get_momentum period self = (Raise ZeroDivisionError, self)) /\
  (~ old_price == 0 ->
   get_momentum period self
   = (Ok (Some ((current_price - old_price) / old_price * 100)), self)) /\
  (0 < old_price ->
   (0 < (current_price - old_price) / old_price * 100 <-> old_price < current_price)) /\
  (period = 1%nat -> ~ old_price == 0 ->
   (current_price - old_price) / old_price * 100 == 0).
Proof.
  intros Hp ps old_price current_price.
  pose proof (get_momentum_value period self Hp) as Hrun. cbv zeta in Hrun.
  fold ps in Hrun. fold old_price current_price in Hrun.
  split; [|split; [|split]].
  - intro Hz. now rewrite Hrun, (py_div_zero _ _ Hz).
  - intro Hnz. now rewrite Hrun, (py_div_ok _ _ Hnz).
  - intro Hpos. split; intro H.
    + assert (Hq : 0 < (current_price - old_price) / old_price) by lra.
      assert (Hm : 0 < (current_price - old_price) / old_price * old_price)
        by (apply Qmult_lt_0_compat; assumption).
      rewrite Qmult_comm, Qmult_div_r in Hm by lra. lra.
    + assert (Hq : 0 < (current_price - old_price) / old_price)
        by (apply Qlt_shift_div_l; [exact Hpos|lra]).
      lra.
  - intros -> Hnz. unfold old_price, current_price.
    setoid_replace (nth (length ps - 1) ps 0 - nth (length ps - 1) ps 0) with 0 by ring.
    unfold Qdiv. rewrite Qmult_0_l. reflexivity.
Qed.

Lemma momentum_cases_witness :
  get_momentum 5 (window_of [7; 0; 3; 4; 5; 6]%Z)
  = (Raise ZeroDivisionError, window_of [7; 0; 3; 4; 5; 6]%Z).
Proof.
  apply (proj1 (momentum_cases 5 (window_of [7; 0; 3; 4; 5; 6]%Z) ltac:(vm_compute; lia))).
  reflexivity.
Defined.

(** ** When an update is sent *)

Lemma calculate_sma_default_value (self : TechnicalAnalyzer) :
  well_formed self -> items (prices self) <> [] ->
  exists v, calculate_sma None self = (Ok (Some v), self).
Proof.
  intros Hwf Hne. rewrite (calculate_sma_default self Hwf).
  rewrite calculate_sma_value; [eexists; reflexivity|].
  destruct (items (prices self)); [congruence|cbn; lia].
Qed.

Lemma calculate_ema_total (period : nat) (self : TechnicalAnalyzer) :
  (1 <= period)%nat -> exists r, calculate_ema period self = (Ok r, self).
Proof.
  intro Hp. destruct (Nat.lt_ge_cases (length (items (prices self))) period) as [H|H].
  - exists None. unfold calculate_ema, bind, self_prices, ret.
    destruct (Nat.ltb_spec (length (items (prices self))) period); [reflexivity|lia].
  - destruct (calculate_ema_value period self (conj Hp H)) as (f & r & _ & Hrun).
    eexists. exact Hrun.
Qed.

Lemma gain_loss_nonneg (ps : list Q) (indices : list nat) :
  Forall nonneg (map (gain_at ps) indices) /\
  Forall nonneg (map (loss_at ps) indices).
Proof.
  split; apply Forall_forall; intros x Hx; apply in_map_iff in Hx;
    destruct Hx as (i & Ex & _); subst x; unfold gain_at, loss_at, nonneg;
    destruct (Qlt_bool (nth (i - 1) ps 0) (nth i ps 0)) eqn:E;
    try lra;
    [apply Qlt_bool_iff in E|apply Qlt_bool_false_iff in E]; lra.
Qed.

Lemma calculate_rsi_total (period : nat) (self : TechnicalAnalyzer) :
  (1 <= period)%nat -> exists r, calculate_rsi period self = (Ok r, self).
Proof.
  intro Hp.
  destruct (Nat.lt_ge_cases (length (items (prices self))) (period + 1)) as [H|H].
  - exists None. unfold calculate_rsi, bind, self_prices, ret.
    destruct (Nat.ltb_spec (length (items (prices self))) (period + 1));
      [reflexivity|lia].
  - rewrite (calculate_rsi_value period self Hp H). cbv zeta.
    set (ps := items (prices self)).
    set (indices := rsi_indices period (length ps)).
    destruct (gain_loss_nonneg ps indices) as [Hg Hl].
    pose proof (Qnat_pos period Hp) as Hpp.
    set (avg_gain := py_sum (map (gain_at ps) indices) / Qnat period).
    set (avg_loss := py_sum (map (loss_at ps) indices) / Qnat period).
    assert (Hag : 0 <= avg_gain) by (apply Qdiv_nonneg; [now apply py_sum_nonneg|exact Hpp]).
    assert (Hal : 0 <= avg_loss) by (apply Qdiv_nonneg; [now apply py_sum_nonneg|exact Hpp]).
    destruct (Qeq_bool avg_loss 0) eqn:E; [eexists; reflexivity|].
    apply Qeq_bool_neq in E.
    assert (Hlpos : 0 < avg_loss).
    { destruct (Qlt_le_dec 0 avg_loss) as [Hlt|Hle]; [exact Hlt|]. exfalso. apply E. lra. }
    destruct (rsi_value_range avg_gain avg_loss Hag Hlpos) as (Hden & _).
    rewrite (py_div_ok _ _ E). cbn [rbind]. rewrite py_div_ok by lra.
    eexists. reflexivity.
Qed.

Lemma get_trend_total (self : TechnicalAnalyzer) :
  exists label, get_trend self = (Ok label, self).
Proof.
  destruct (Nat.lt_ge_cases (length (items (prices self))) 5) as [H|H].
  - eexists. now apply get_trend_insufficient.
  - pose proof (slice_last_length 5 (items (prices self)) ltac:(lia)) as L.
    destruct (slice_last 5 (items (prices self)))
      as [|x0 [|x1 [|x2 [|x3 [|x4 [|x5 r]]]]]] eqn:E; cbn [length] in L; try lia.
    exists (trend_of_five x0 x1 x2 x3 x4). apply get_trend_five. exact E.
Qed.

Lemma analyze_support_resistance_total (window_size : nat) (self : TechnicalAnalyzer) :
  exists sr, analyze_support_resistance window_size self = (Ok sr, self).
Proof.
  destruct (Nat.lt_ge_cases (length (items (prices self))) 5) as [H|H].
  - eexists. unfold analyze_support_resistance, bind, self_prices, ret.
    destruct (Nat.ltb_spec (length (items (prices self))) 5); [reflexivity|lia].
  - destruct (analyze_support_resistance_value window_size self H)
      as (lo & hi & Hrun & _). eexists. exact Hrun.
Qed.

Lemma get_volatility_total (sqrt : Q -> Q) (period : nat) (self : TechnicalAnalyzer) :
  (1 <= period)%nat -> exists r, get_volatility sqrt period self = (Ok r, self).
Proof.
  intro Hp. destruct (Nat.lt_ge_cases (length (items (prices self))) period) as [H|H].
  - exists None. unfold get_volatility, bind, self_prices, ret.
    destruct (Nat.ltb_spec (length (items (prices self))) period); [reflexivity|lia].
  - destruct (get_volatility_value sqrt period self (conj Hp H)) as (v & Hrun & _).
    eexists. exact Hrun.
Qed.

(** X11. [send_to_lark_webhook] leaves the analyzer unchanged.  On an empty
    window it reports failure (the default SMA raises).  On a non-empty
    well-formed window it reports success exactly when the request
    succeeded, unless the window holds at least five prices and the fifth
    price from the end is zero: then the momentum raises and the update is
    not sent. *)
Theorem webhook_result (sqrt : Q -> Q) (posted : bool) (self : TechnicalAnalyzer) :
  well_formed self ->
  let ps := items (prices self) in
  (ps = [] -> send_to_lark_webhook sqrt posted self = (Ok false, self)) /\
  (ps <> [] ->
   send_to_lark_webhook sqrt posted self
   = (Ok (posted && negb ((5 <=? length ps)%nat
                          && Qeq_bool (nth (length ps - 5) ps 0) 0)), self)).
Proof.
  intros Hwf ps. split; intro Hps.
  - unfold send_to_lark_webhook, try_except, bind.
    assert (Hsma : calculate_sma None self = (Raise ZeroDivisionError, self)).
    { unfold calculate_sma, bind, self_prices, self_lookback_period, ret, lift.
      fold ps. rewrite Hps. cbn [length]. now rewrite Nat.min_0_r. }
    now rewrite Hsma.
  - destruct (calculate_sma_default_value self Hwf Hps) as (sma & Hsma).
    destruct (calculate_ema_total 12 self ltac:(lia)) as (ema & Hema).
    destruct (calculate_rsi_total 14 self ltac:(lia)) as (rsi & Hrsi).
    destruct (get_trend_total self) as (trend & Htrend).
    destruct (analyze_support_resistance_total 8 self) as (sr & Hsr).
    destruct (get_volatility_total sqrt 5 self ltac:(lia)) as (vol & Hvol).
    unfold send_to_lark_webhook, try_except, bind.
    rewrite Hsma, Hema, Hrsi, Htrend, Hsr, Hvol.
    destruct (Nat.leb_spec 5 (length ps)) as [H5|H5]; cbn [andb negb].
    + assert (H15 : (1 <= 5 <= length (items (prices self)))%nat)
        by (fold ps; lia).
      rewrite (get_momentum_value 5 self H15). cbv zeta. fold ps.
      unfold py_div. destruct (Qeq_bool (nth (length ps - 5) ps 0) 0);
        cbn [rbind negb]; [now rewrite andb_false_r|now rewrite andb_true_r].
    + assert (Hm : get_momentum 5 self = (Ok None, self)).
      { unfold get_momentum, bind, self_prices, ret. fold ps.
        destruct (Nat.ltb_spec (length ps) 5); [reflexivity|lia]. }
      rewrite Hm. cbn [ret]. now rewrite andb_true_r.
Qed.

Lemma webhook_result_witness :
  send_to_lark_webhook (fun x => x) true (new_analyzer 20)
  = (Ok false, new_analyzer 20) /\
  send_to_lark_webhook (fun x => x) true (window_of [7; 0; 3; 4; 5; 6]%Z)
  = (Ok false, window_of [7; 0; 3; 4; 5; 6]%Z).
Proof.
  split.
  - refine (proj1 (webhook_result (fun x => x) true (new_analyzer 20) _) _).
    + unfold well_formed. repeat split; try reflexivity. vm_compute. lia.
    + reflexivity.
  - refine (proj2 (webhook_result (fun x => x) true
                     (window_of [7; 0; 3; 4; 5; 6]%Z) _) _).
    + unfold well_formed. repeat split; try reflexivity. vm_compute. lia.
    + vm_compute. discriminate.
Defined.

(** ** The two fetches *)

(** X12. [get_hsk_price] returns price data exactly when the payload is a
    non-empty list whose first ticker has all eight fields as numbers; the
    data are those eight numbers, and the tickers after the first play no
    part. *)
Theorem get_hsk_price_some_iff (response : ticker_response) (d : price_data) :
  get_hsk_price response = Some d <->
  exists t rest,
    response = JsonList (t :: rest) /\
    last t = Some (price d) /\
    change_percentage t = Some (pd_change_percentage d) /\
    lowest_ask t = Some (pd_lowest_ask d) /\
    highest_bid t = Some (pd_highest_bid d) /\
    high_24h t = Some (pd_high_24h d) /\
    low_24h t = Some (pd_low_24h d) /\
    base_volume t = Some (pd_base_volume d) /\
    quote_volume t = Some (pd_quote_volume d).
Proof.
  split.
  - destruct response as [| | | | |[|t rest]|]; try discriminate.
    intro H. exists t, rest. split; [reflexivity|].
    destruct t as [a b c e f g h i]. cbn in *.
    destruct a, b, c, e, f, g, h, i; try discriminate.
    injection H as <-. cbn. repeat split.
  - intros (t & rest & -> & H1 & H2 & H3 & H4 & H5 & H6 & H7 & H8).
    cbn. rewrite H1, H2, H3, H4, H5, H6, H7, H8. now destruct d.
Qed.

Lemma parse_closes_none (candles : list (option Q)) :
  In None candles -> parse_closes candles = Raise ValueError.
Proof.
  induction candles as [|[c|] candles IH]; intro H.
  - destruct H.
  - destruct H as [H|H]; [discriminate|]. cbn. now rewrite (IH H).
  - reflexivity.
Qed.

(** X13. The outcomes of [get_kline_analysis]: a failed request, a candle
    whose close is not a number (even a single one) and a batch whose first
    close is zero all give [K线数据获取失败]; an empty list gives
    [无法获取K线数据]; a single well-formed candle gives [K线数据不足]; and a
    batch of at least two closes with a non-zero first close gives the
    report rendered from the computed levels. *)
Theorem kline_analysis_outcomes (sqrt : Q -> Q) (format_6f : Q -> string) :
  get_kline_analysis sqrt format_6f KlineRequestFailed = "K线数据获取失败"%string /\
  get_kline_analysis sqrt format_6f (KlineData []) = "无法获取K线数据"%string /\
  (forall candles,
      In None candles ->
      get_kline_analysis sqrt format_6f (KlineData candles)
      = "K线数据获取失败"%string) /\
  (forall c,
      get_kline_analysis sqrt format_6f (KlineData [Some c])
      = "K线数据不足"%string) /\
  (forall closes,
      (2 <= length closes)%nat -> hd 0 closes == 0 ->
      get_kline_analysis sqrt format_6f (KlineData (map Some closes))
      = "K线数据获取失败"%string) /\
  (forall closes,
      (2 <= length closes)%nat -> ~ hd 0 closes == 0 ->
      exists k,
        kline_locals sqrt closes = Ok k /\
        get_kline_analysis sqrt format_6f (KlineData (map Some closes))
        = render_kline format_6f k).
Proof.
  split; [reflexivity|]. split; [reflexivity|]. split; [|split; [|split]].
  - intros candles H. unfold get_kline_analysis.
    destruct candles as [|c candles]; [destruct H|].
    now rewrite (parse_closes_none _ H).
  - reflexivity.
  - intros closes Hlen Hz. unfold get_kline_analysis.
    destruct closes as [|c closes]; [cbn in Hlen; lia|].
    cbn [map]. change (Some c :: map Some closes) with (map Some (c :: closes)).
    rewrite parse_closes_total.
    destruct (Nat.ltb_spec (length (c :: closes)) 2); [lia|].
    now rewrite kline_locals_zero_start.
  - intros closes Hlen Hnz. now apply get_kline_analysis_report.
Qed.

Lemma kline_analysis_outcomes_witness :
  get_kline_analysis (fun x => x) (fun _ => "0"%string) (KlineData [Some 3; None])
  = "K线数据获取失败"%string /\
  get_kline_analysis (fun x => x) (fun _ => "0"%string) (KlineData (map Some [0; 3]))
  = "K线数据获取失败"%string /\
  exists k,
    kline_locals (fun x => x) [2; 3] = Ok k /\
    get_kline_analysis (fun x => x) (fun _ => "0"%string) (KlineData (map Some [2; 3]))
    = render_kline (fun _ => "0"%string) k.
Proof.
  destruct (kline_analysis_outcomes (fun x => x) (fun _ => "0"%string))
    as (_ & _ & Hnone & _ & Hzero & Hreport).
  split; [|split].
  - apply Hnone. right. now left.
  - apply Hzero; [vm_compute; lia|reflexivity].
  - apply Hreport; [vm_compute; lia|vm_compute; discriminate].
Defined.

(** ** The blocks of the composer *)

Lemma Qlt_bool_true (x y : Q) : x < y -> Qlt_bool x y = true.
Proof. apply Qlt_bool_iff. Qed.

Lemma Qlt_bool_false (x y : Q) : y <= x -> Qlt_bool x y = false.
Proof. apply Qlt_bool_false_iff. Qed.







(** X15. The momentum block of the composer emits nothing for an absent
    momentum, for a momentum of zero, and for one whose magnitude lies
    between 1 and 5 inclusive.  Above 5 it emits the strong statement with
    direction up, below -5 the strong statement with direction down, and
    strictly between -1 and 1 (zero apart) the weak statement. *)
Theorem momentum_rule_cases (format_2f : Q -> string) (m : Q) :
  momentum_rule format_2f None = [] /\
  (m == 0 -> momentum_rule format_2f (Some m) = []) /\
  (5 < m ->
   momentum_rule format_2f (Some m)
   = ["动量强劲(" ++ format_2f m ++ "%)，" ++ "上行" ++ "趋势明显"]%string) /\
  (m < -5 ->
   momentum_rule format_2f (Some m)
   = ["动量强劲(" ++ format_2f m ++ "%)，" ++ "下行" ++ "趋势明显"]%string) /\
  (~ m == 0 -> -1 < m < 1 ->
   momentum_rule format_2f (Some m)
   = ["动量较弱(" ++ format_2f m ++ "%)，可能盘整"]%string) /\
  (1 <= m <= 5 \/ -5 <= m <= -1 -> momentum_rule format_2f (Some m) = []).
Proof.
  split; [reflexivity|]. split; [|split; [|split; [|split]]].
  - intro H. unfold momentum_rule. now rewrite (truthy_zero m H).
  - intro H. unfold momentum_rule. rewrite truthy_nonzero by lra.
    assert (Ha : 5 < Qabs m) by (rewrite Qabs_pos by lra; exact H).
    rewrite (Qlt_bool_true _ _ Ha), Qlt_bool_true by lra. reflexivity.
  - intro H. unfold momentum_rule. rewrite truthy_nonzero by lra.
    assert (Ha : 5 < Qabs m) by (rewrite Qabs_neg by lra; lra).
    rewrite (Qlt_bool_true _ _ Ha), Qlt_bool_false by lra. reflexivity.
  - intros Hnz H. unfold momentum_rule. rewrite (truthy_nonzero m Hnz).
    assert (Ha : Qabs m < 1) by (apply Qabs_Qlt_condition; lra).
    rewrite (Qlt_bool_false 5 (Qabs m)) by lra.
    now rewrite (Qlt_bool_true _ _ Ha).
  - intro H. unfold momentum_rule. rewrite truthy_nonzero by lra.
    assert (Ha : 1 <= Qabs m <= 5).
    { destruct H as [H|H]; [rewrite Qabs_pos by lra|rewrite Qabs_neg by lra]; lra. }
    rewrite (Qlt_bool_false 5 (Qabs m)), (Qlt_bool_false (Qabs m) 1) by lra.
    reflexivity.
Qed.

Lemma momentum_rule_cases_witness :
  momentum_rule (fun _ => "#"%string) (Some 0) = [] /\
  momentum_rule (fun _ => "#"%string) (Some (-5)) = [] /\
  momentum_rule (fun _ => "#"%string) (Some (-6))
  = ["动量强劲(" ++ "#" ++ "%)，" ++ "下行" ++ "趋势明显"]%string.
Proof.
  destruct (momentum_rule_cases (fun _ => "#"%string) 0) as (_ & H0 & _).
  destruct (momentum_rule_cases (fun _ => "#"%string) (-5)) as (_ & _ & _ & _ & _ & H5).
  destruct (momentum_rule_cases (fun _ => "#"%string) (-6)) as (_ & _ & _ & H6 & _).
  split; [|split].
  - apply H0. reflexivity.
  - apply H5. right. split; vm_compute; discriminate.
  - apply H6. reflexivity.
Defined.




(** ** Strings: searching, splitting, removing *)

Section Strings.

Local Open Scope string_scope.

Lemma append_assoc (a b c : string) : (a ++ b) ++ c = a ++ (b ++ c).
Proof. induction a as [|x a IH]; [reflexivity|]. cbn. now rewrite IH. Qed.

Lemma append_nil_r (a : string) : a ++ "" = a.
Proof. induction a as [|x a IH]; [reflexivity|]. cbn. now rewrite IH. Qed.

Lemma occurs_app (c : ascii) (a b : string) :
  occurs c (a ++ b) = occurs c a || occurs c b.
Proof.
  induction a as [|x a IH]; [reflexivity|]. cbn. now rewrite IH, orb_assoc.
Qed.

Lemma starts_with_app (p b : string) : starts_with p (p ++ b) = true.
Proof.
  induction p as [|x p IH]; [reflexivity|]. cbn. now rewrite Ascii.eqb_refl, IH.
Qed.

Lemma starts_with_occurs (c : ascii) (p : string) :
  forall s, starts_with p s = true -> occurs c p = true -> occurs c s = true.
Proof.
  induction p as [|x p IH]; intros s Hp Hc; [discriminate|].
  destruct s as [|y s]; [discriminate|]. cbn in *.
  apply andb_prop in Hp. destruct Hp as [Hxy Hp].
  apply Ascii.eqb_eq in Hxy. subst y.
  destruct (Ascii.eqb c x); [reflexivity|]. cbn in *. now apply IH.
Qed.

(** A string that lacks one character of [sub] does not contain [sub]. *)
Lemma contains_absent (c : ascii) (sub s : string) :
  occurs c sub = true -> occurs c s = false -> py_contains sub s = false.
Proof.
  intros Hc. induction s as [|y s IH]; intro Hs.
  - cbn. destruct sub; [discriminate|reflexivity].
  - cbn [py_contains]. cbn in Hs. apply orb_false_elim in Hs.
    destruct Hs as [Hy Hs]. rewrite (IH Hs), orb_false_r.
    destruct (starts_with sub (String y s)) eqn:E; [|reflexivity].
    pose proof (starts_with_occurs c sub _ E Hc) as Ho. cbn in Ho.
    now rewrite Hy, Hs in Ho.
Qed.

Lemma contains_prefix (sub s : string) :
  starts_with sub s = true -> py_contains sub s = true.
Proof. intro H. destruct s; cbn [py_contains]; now rewrite H. Qed.

Lemma starts_with_head (c : ascii) (p s : string) :
  occurs c s = false -> starts_with (String c p) s = false.
Proof.
  destruct s as [|y s]; [reflexivity|]. cbn. intro H.
  apply orb_false_elim in H. now rewrite (proj1 H).
Qed.

(** Without the first character of the separator there is one piece. *)
Lemma split_plain (c : ascii) (p : string) (s : string) :
  forall cur, occurs c s = false -> split_from (String c p) 0 cur s = [cur ++ s].
Proof.
  induction s as [|y s IH]; intros cur H.
  - cbn. now rewrite append_nil_r.
  - cbn [split_from]. rewrite (starts_with_head c p _ H).
    cbn in H. apply orb_false_elim in H. rewrite (IH _ (proj2 H)).
    now rewrite append_assoc.
Qed.

Lemma split_skip (sep x b : string) :
  forall cur, split_from sep (String.length x) cur (x ++ b) = split_from sep 0 cur b.
Proof. induction x as [|y x IH]; intro cur; [reflexivity|]. cbn. apply IH. Qed.

(** The first piece ends at the first separator. *)
Lemma split_at (c : ascii) (p a b : string) :
  forall cur,
    occurs c a = false ->
    split_from (String c p) 0 cur (a ++ String c p ++ b)
    = (cur ++ a) :: split_from (String c p) 0 "" b.
Proof.
  induction a as [|y a IH]; intros cur H.
  - cbn [append split_from].
    pose proof (starts_with_app (String c p) b) as Hs. cbn [append] in Hs.
    rewrite Hs.
    replace (String.length (String c p) - 1)%nat with (String.length p)
      by (cbn [String.length]; lia).
    rewrite split_skip.
    now rewrite append_nil_r.
  - cbn [append split_from].
    assert (Hh : starts_with (String c p) (String y (a ++ String c (p ++ b))) = false).
    { cbn. cbn in H. apply orb_false_elim in H. now rewrite (proj1 H). }
    rewrite Hh. cbn in H. apply orb_false_elim in H.
    pose proof (IH (cur ++ String y "") (proj2 H)) as IH'. cbn [append] in IH'.
    rewrite IH'. now rewrite append_assoc.
Qed.

(** Splitting a joined list gives the list back when no piece has the
    first character of the separator. *)
Lemma split_concat (c : ascii) (p : string) (x : string) (parts : list string) :
  Forall (fun part => occurs c part = false) (x :: parts) ->
  py_split (String c p) (String.concat (String c p) (x :: parts)) = (x :: parts)%list.
Proof.
  unfold py_split. revert x. induction parts as [|y parts IH]; intros x H.
  - cbn [String.concat]. inversion H; subst. now rewrite split_plain.
  - inversion H as [|? ? Hx Hr]; subst.
    change (String.concat (String c p) (x :: y :: parts))
      with (x ++ String c p ++ String.concat (String c p) (y :: parts)).
    rewrite split_at by exact Hx. cbn [append]. f_equal. now apply IH.
Qed.

Lemma remove_plain (c : ascii) (p s : string) :
  occurs c s = false -> remove_from (String c p) 0 s = s.
Proof.
  induction s as [|y s IH]; intro H; [reflexivity|].
  cbn [remove_from]. rewrite (starts_with_head c p _ H).
  cbn in H. apply orb_false_elim in H. now rewrite (IH (proj2 H)).
Qed.

Lemma remove_skip (old x b : string) :
  remove_from old (String.length x) (x ++ b) = remove_from old 0 b.
Proof. induction x as [|y x IH]; [reflexivity|]. cbn. apply IH. Qed.

(** Removing a string that only occurs at the front leaves the rest. *)
Lemma remove_front (c : ascii) (p b : string) :
  occurs c b = false -> py_remove (String c p) (String c p ++ b) = b.
Proof.
  intro H. unfold py_remove. cbn [append remove_from].
  pose proof (starts_with_app (String c p) b) as Hs. cbn [append] in Hs.
  rewrite Hs.
  replace (String.length (String c p) - 1)%nat with (String.length p)
    by (cbn [String.length]; lia).
  rewrite remove_skip.
  now apply remove_plain.
Qed.

Lemma plain_absent (c : ascii) (s : string) :
  plain s -> occurs c "0123456789.-" = false -> occurs c s = false.
Proof.
  intros Hp Hc. destruct (occurs c s) eqn:E; [|reflexivity].
  apply Hp in E. congruence.
Qed.

End Strings.

(** ** The report, written and read back *)

Section Reading.

Local Open Scope string_scope.

Variable format_6f : Q -> string.
Hypothesis format_plain : forall x, plain (format_6f x).

(** Settle that a character which is no digit, point or minus sign is
    absent from a keyword followed by a formatted number. *)
Ltac solve_absent :=
  repeat rewrite occurs_app;
  repeat match goal with
         | |- context [occurs ?c (format_6f ?v)] =>
             rewrite (plain_absent c (format_6f v) (format_plain v) eq_refl)
         end;
  reflexivity.

Lemma split_key_value (key value : string) :
  occurs "=" key = false -> occurs "=" value = false ->
  py_getitem (py_split "=" (key ++ "=" ++ value)) 1 = Ok value.
Proof.
  intros Hk Hv. unfold py_split.
  rewrite (split_at "=" "" key value "" Hk).
  now rewrite (split_plain "=" "" value "" Hv).
Qed.

Lemma read_part_trend (kf : kline_fields) (trend : string) :
  trend = "看涨" \/ trend = "看跌" ->
  read_part kf ("趋势=" ++ trend)
  = Ok (mkFields trend (kf_volatility kf) (kf_support kf) (kf_resistance kf)).
Proof. intros [-> | ->]; reflexivity. Qed.

Lemma read_part_volatility (kf : kline_fields) (v : Q) :
  read_part kf ("波动率=" ++ format_6f v)
  = Ok (mkFields (kf_trend kf) (format_6f v) (kf_support kf) (kf_resistance kf)).
Proof.
  unfold read_part.
  rewrite (contains_absent (ascii_of_nat 232) "趋势=") by solve_absent.
  rewrite (contains_prefix "波动率=") by apply starts_with_app.
  change ("波动率=" ++ format_6f v) with ("波动率" ++ "=" ++ format_6f v).
  rewrite split_key_value by solve_absent. reflexivity.
Qed.

Lemma read_part_support (kf : kline_fields) (v : Q) :
  read_part kf ("支撑=" ++ format_6f v)
  = Ok (mkFields (kf_trend kf) (kf_volatility kf) (format_6f v) (kf_resistance kf)).
Proof.
  unfold read_part.
  rewrite (contains_absent (ascii_of_nat 232) "趋势=") by solve_absent.
  rewrite (contains_absent (ascii_of_nat 179) "波动率=") by solve_absent.
  rewrite (contains_prefix "支撑=") by apply starts_with_app.
  change ("支撑=" ++ format_6f v) with ("支撑" ++ "=" ++ format_6f v).
  rewrite split_key_value by solve_absent. reflexivity.
Qed.

Lemma read_part_resistance (kf : kline_fields) (v : Q) :
  read_part kf ("阻力=" ++ format_6f v)
  = Ok (mkFields (kf_trend kf) (kf_volatility kf) (kf_support kf) (format_6f v)).
Proof.
  unfold read_part.
  rewrite (contains_absent (ascii_of_nat 232) "趋势=") by solve_absent.
  rewrite (contains_absent (ascii_of_nat 230) "波动率=") by solve_absent.
  rewrite (contains_absent (ascii_of_nat 230) "支撑=") by solve_absent.
  rewrite (contains_prefix "阻力=") by apply starts_with_app.
  change ("阻力=" ++ format_6f v) with ("阻力" ++ "=" ++ format_6f v).
  rewrite split_key_value by solve_absent. reflexivity.
Qed.

Lemma render_kline_parts (k : kline_levels) :
  render_kline format_6f k
  = "K线分析: " ++ String.concat ", " (report_parts format_6f k).
Proof.
  unfold render_kline, report_parts.
  destruct (kline_support k) as [s|]; destruct (kline_resistance k) as [r|];
    try destruct (truthy (Some s)); try destruct (truthy (Some r));
    cbn [List.app String.concat]; rewrite ?append_assoc; reflexivity.
Qed.

Lemma occurs_concat (c : ascii) (sep : string) (parts : list string) :
  occurs c sep = false ->
  Forall (fun part => occurs c part = false) parts ->
  occurs c (String.concat sep parts) = false.
Proof.
  intros Hsep H. induction H as [|x parts Hx Hr IH]; [reflexivity|].
  destruct parts as [|y parts]; [exact Hx|].
  change (String.concat sep (x :: y :: parts))
    with (x ++ sep ++ String.concat sep (y :: parts)).
  now rewrite !occurs_app, Hx, Hsep, IH.
Qed.

Lemma report_parts_absent (c : ascii) (k : kline_levels) :
  kline_trend k = "看涨" \/ kline_trend k = "看跌" ->
  occurs c "0123456789.-" = false ->
  occurs c "趋势=波动率=支撑=阻力=看涨看跌" = false ->
  Forall (fun part => occurs c part = false) (report_parts format_6f k).
Proof.
  intros Ht Hnum Hkey.
  assert (Hf : forall v, occurs c (format_6f v) = false)
    by (intro v; now apply plain_absent).
  assert (Hsub : forall key, (forall d, occurs d key = true ->
                    occurs d "趋势=波动率=支撑=阻力=看涨看跌" = true) ->
                 occurs c key = false).
  { intros key Hin. destruct (occurs c key) eqn:E; [|reflexivity].
    apply Hin in E. congruence. }
  assert (Hkeys : occurs c "趋势=" = false /\ occurs c "波动率=" = false /\
                  occurs c "支撑=" = false /\ occurs c "阻力=" = false /\
                  occurs c "看涨" = false /\ occurs c "看跌" = false).
  { cbn in Hkey. repeat (apply orb_false_elim in Hkey; destruct Hkey as [? Hkey]).
    cbn. repeat split;
      repeat match goal with H : Ascii.eqb c _ = false |- _ => rewrite H; clear H end;
      reflexivity. }
  destruct Hkeys as (K1 & K2 & K3 & K4 & T1 & T2).
  unfold report_parts. apply Forall_app. split; [|apply Forall_app; split].
  - repeat constructor; rewrite occurs_app.
    + rewrite K1. destruct Ht as [-> | ->]; [exact T1|exact T2].
    + now rewrite K2, Hf.
  - destruct (kline_support k) as [s|]; [|constructor].
    destruct (truthy (Some s)); repeat constructor.
    now rewrite occurs_app, K3, Hf.
  - destruct (kline_resistance k) as [r|]; [|constructor].
    destruct (truthy (Some r)); repeat constructor.
    now rewrite occurs_app, K4, Hf.
Qed.

Lemma read_report_parts (k : kline_levels) :
  kline_trend k = "看涨" \/ kline_trend k = "看跌" ->
  read_parts unknown_fields (report_parts format_6f k) = Ok (fields_of format_6f k).
Proof.
  intro Ht. unfold report_parts, fields_of, shown_level.
  cbn [List.app read_parts].
  rewrite (read_part_trend _ _ Ht). cbn [rbind].
  rewrite read_part_volatility. cbn [rbind].
  destruct (kline_support k) as [s|]; destruct (kline_resistance k) as [r|];
    try destruct (truthy (Some s)); try destruct (truthy (Some r));
    cbn [List.app read_parts];
    rewrite ?read_part_support; cbn [rbind];
    rewrite ?read_part_resistance; reflexivity.
Qed.

(** The report rendered from the levels reads back as those levels. *)
Lemma parse_render_kline (k : kline_levels) :
  kline_trend k = "看涨" \/ kline_trend k = "看跌" ->
  parse_kline_analysis (render_kline format_6f k) = Ok (fields_of format_6f k).
Proof.
  intro Ht. rewrite render_kline_parts. unfold parse_kline_analysis.
  rewrite (contains_prefix "K线分析:") by reflexivity.
  rewrite (remove_front "K" "线分析: ").
  - unfold report_parts at 1. cbn [List.app].
    rewrite (split_concat "," " ").
    + now apply read_report_parts.
    + apply (report_parts_absent "," k Ht); reflexivity.
  - apply occurs_concat; [reflexivity|].
    apply (report_parts_absent "K" k Ht); reflexivity.
Qed.

End Reading.

Lemma plain_check (s : string) :
  forallb (fun c => occurs c "0123456789.-") (list_ascii_of_string s) = true ->
  plain s.
Proof.
  intros H c Hc. rewrite forallb_forall in H. apply H.
  clear H. induction s as [|d s IH]; [discriminate|].
  cbn in *. apply orb_prop in Hc. destruct Hc as [Hc|Hc].
  - left. apply Ascii.eqb_eq in Hc. now subst.
  - right. now apply IH.
Qed.

Lemma parse_closes_inv (candles : list (option Q)) (closes : list Q) :
  parse_closes candles = Ok closes -> candles = map Some closes.
Proof.
  revert closes. induction candles as [|[c|] candles IH]; intros closes H.
  - injection H as <-. reflexivity.
  - cbn in H. destruct (parse_closes candles) as [cs|] eqn:E; [|discriminate].
    injection H as <-. cbn. f_equal. now apply IH.
  - discriminate.
Qed.

Lemma kline_locals_trend (sqrt : Q -> Q) (closes : list Q) (k : kline_levels) :
  (2 <= length closes)%nat ->
  kline_locals sqrt closes = Ok k ->
  kline_trend k = "看涨"%string \/ kline_trend k = "看跌"%string.
Proof.
  intros Hlen Hk.
  assert (Hne : closes <> []) by (destruct closes; [cbn in Hlen; lia|discriminate]).
  destruct (Qeq_dec (hd 0 closes) 0) as [Hz|Hnz].
  { rewrite (kline_locals_zero_start sqrt closes Hne Hz) in Hk. discriminate. }
  destruct (kline_locals_total sqrt closes Hlen Hnz)
    as (highs & lows & v & _ & _ & _ & _ & _ & _ & Hrun).
  rewrite Hrun in Hk.
  apply (f_equal (fun r => match r with Ok x => x | Raise _ => k end)) in Hk.
  cbv beta iota in Hk. subst k. cbn [kline_trend].
  destruct (Qlt_bool _ _); [now left|now right].
Qed.

(** Every response gives one of the three fixed messages or the report of
    a batch of at least two closes. *)
Lemma get_kline_analysis_cases (sqrt : Q -> Q) (format_6f : Q -> string)
  (response : kline_response) :
  In (get_kline_analysis sqrt format_6f response)
     ["K线数据获取失败"; "无法获取K线数据"; "K线数据不足"]%string \/
  exists closes k,
    response = KlineData (map Some closes) /\
    (2 <= length closes)%nat /\
    kline_locals sqrt closes = Ok k /\
    get_kline_analysis sqrt format_6f response = render_kline format_6f k.
Proof.
  destruct response as [|candles]; [left; now left|].
  destruct candles as [|c candles]; [left; right; now left|].
  unfold get_kline_analysis.
  destruct (parse_closes (c :: candles)) as [closes|e] eqn:Ep; [|left; now left].
  destruct (Nat.ltb_spec (length closes) 2) as [Hlt|Hge];
    [left; right; right; now left|].
  destruct (kline_locals sqrt closes) as [k|e] eqn:Ek; [|left; now left].
  right. exists closes, k. repeat split; try assumption.
  f_equal. now apply parse_closes_inv.
Qed.

(** X17. Whatever the candlestick response, reading the string returned by
    [get_kline_analysis] back, as [send_to_lark_webhook] does, never
    raises.  When the analysis produced a report, the four fields read are
    the trend computed, the formatted volatility, and each level formatted
    or else [未知] when the level was zero and so left out of the report.
    When the analysis gave one of its three failure messages, all four
    fields stay [未知].  (Formatted numbers hold digits, points and minus
    signs only.) *)
Theorem kline_report_round_trip (sqrt : Q -> Q) (format_6f : Q -> string)
  (response : kline_response) :
  (forall x, plain (format_6f x)) ->
  let report := get_kline_analysis sqrt format_6f response in
  (exists closes k,
      response = KlineData (map Some closes) /\
      (2 <= length closes)%nat /\
      kline_locals sqrt closes = Ok k /\
      report = render_kline format_6f k /\
      parse_kline_analysis report = Ok (fields_of format_6f k)) \/
  (In report ["K线数据获取失败"; "无法获取K线数据"; "K线数据不足"]%string /\
   parse_kline_analysis report = Ok unknown_fields).
Proof.
  intros Hplain report.
  destruct (get_kline_analysis_cases sqrt format_6f response) as [Hfail|Hok].
  - right. fold report in Hfail. split; [exact Hfail|].
    cbn [In] in Hfail. destruct Hfail as [<-|[<-|[<-|[]]]]; reflexivity.
  - left. destruct Hok as (closes & k & Hr & Hlen & Hk & Hrep).
    exists closes, k. fold report in Hrep. repeat split; try assumption.
    rewrite Hrep. apply (parse_render_kline format_6f Hplain).
    now apply (kline_locals_trend sqrt closes).
Qed.

Lemma kline_report_round_trip_witness :
  let format_6f := fun x : Q => if Qle_bool 0 x then "1.5"%string else "-1.5"%string in
  let report := get_kline_analysis (fun x => x) format_6f
                  (KlineData (map Some [2; 0; 3])) in
  (exists closes k,
      KlineData (map Some [2; 0; 3]) = KlineData (map Some closes) /\
      (2 <= length closes)%nat /\
      kline_locals (fun x => x) closes = Ok k /\
      report = render_kline format_6f k /\
      parse_kline_analysis report = Ok (fields_of format_6f k)) \/
  (In report ["K线数据获取失败"; "无法获取K线数据"; "K线数据不足"]%string /\
   parse_kline_analysis report = Ok unknown_fields).
Proof.
  intros format_6f report.
  apply (kline_report_round_trip (fun x => x) format_6f
           (KlineData (map Some [2; 0; 3]))).
  intro x. apply plain_check. unfold format_6f.
  destruct (Qle_bool 0 x); vm_compute; reflexivity.
Defined.

(** ** The first update *)









(** ** A flat window *)









Section FlatWindow.

Variable sqrt : Q -> Q.
Variable self : TechnicalAnalyzer.
Variable p : Q.
Variable m : nat.

Hypothesis self_well_formed : well_formed self.
Hypothesis self_flat : items (prices self) = repeat p m.
Hypothesis enough : (15 <= m)%nat.
Hypothesis positive : 0 < p.









End FlatWindow.


